(** * Calendar engine of [utils.py]: Easter, third Fridays, SPX expirations,
      VIX settlements and the table annotations built on them.

    The Python functions are embedded as Rocq functions over a model of the
    [pandas.Timestamp] operations they call.  A Timestamp is its count of
    nanoseconds since 1970-01-01 (pandas' [value]); its calendar fields are
    read back through the proleptic Gregorian calendar.  Constructing a
    Timestamp from fields raises [ValueError] on a month outside 1..12 or a
    day outside the month, as [datetime] does.  The finite range of
    representable Timestamps is not modelled: years range over all of [Z]. *)

From Stdlib Require Import ZArith List Bool String Lia.
Import ListNotations.
Open Scope Z_scope.

(** ** Exceptions and results *)

Inductive exn : Type := ValueError | KeyError | TypeError.

Inductive result (A : Type) : Type :=
| Ok (a : A)
| Raise (e : exn).
Arguments Ok {A} a.
Arguments Raise {A} e.

Definition bind {A B : Type} (r : result A) (k : A -> result B) : result B :=
  match r with
  | Ok a => k a
  | Raise e => Raise e
  end.

Notation "x <- r ;; k" := (bind r (fun x => k))
  (at level 61, r at next level, right associativity).

Definition raises {A : Type} (r : result A) : Prop := exists e, r = Raise e.

(** ** The proleptic Gregorian calendar *)

Module Calendar.

Definition is_leapyear (year : Z) : bool :=
  (year mod 4 =? 0) && (negb (year mod 100 =? 0) || (year mod 400 =? 0)).

Definition days_per_month_table (leap : bool) : list Z :=
  [31; if leap then 29 else 28; 31; 30; 31; 30; 31; 31; 30; 31; 30; 31].

Definition days_in_month (year month : Z) : Z :=
  nth (Z.to_nat (month - 1)) (days_per_month_table (is_leapyear year)) 0.

(** Days of the year before the first of [month]. *)
Definition days_before_month (year month : Z) : Z :=
  fold_right Z.add 0
    (firstn (Z.to_nat (month - 1)) (days_per_month_table (is_leapyear year))).

(** Days from 0001-01-01 to the first of January of [year]. *)
Definition days_before_year (year : Z) : Z :=
  let y := year - 1 in
  y * 365 + y / 4 - y / 100 + y / 400.

(** Day number of 1970-01-01 counted from 0001-01-01. *)
Definition EPOCH_ORDINAL : Z := 719162.

(** Days since 1970-01-01 of the calendar day [year]-[month]-[day]. *)
Definition days_from_civil (year month day : Z) : Z :=
  days_before_year year + days_before_month year month + (day - 1)
  - EPOCH_ORDINAL.

Definition valid_date (year month day : Z) : bool :=
  (1 <=? month) && (month <=? 12) &&
  (1 <=? day) && (day <=? days_in_month year month).

(** Year and day-of-year of a day number: the 400-year cycle is split off
    with floor division, then the centuries, the 4-year groups and the
    years inside the cycle that starts on 2000-01-01. *)
Definition days_per_400years : Z := 400 * 365 + 100 - 4 + 1.

Definition days_to_yearsdays (days0 : Z) : Z * Z :=
  let days := days0 - (365 * 30 + 7) in
  let year := 400 * (days / days_per_400years) in
  let days := days mod days_per_400years in
  let '(year, days) :=
    if 366 <=? days then
      let year := year + 100 * ((days - 1) / (100 * 365 + 25 - 1)) in
      let days := (days - 1) mod (100 * 365 + 25 - 1) in
      if 365 <=? days then
        let year := year + 4 * ((days + 1) / (4 * 365 + 1)) in
        let days := (days + 1) mod (4 * 365 + 1) in
        if 366 <=? days
        then (year + (days - 1) / 365, (days - 1) mod 365)
        else (year, days)
      else (year, days)
    else (year, days) in
  (year + 2000, days).

(** Walk the month lengths until the day of the year falls inside one. *)
Fixpoint month_scan (lens : list Z) (month days : Z) : Z * Z :=
  match lens with
  | [] => (month, days + 1)
  | len :: rest =>
      if days <? len then (month, days + 1)
      else month_scan rest (month + 1) (days - len)
  end.

Definition civil_from_days (days : Z) : Z * Z * Z :=
  let '(year, yday) := days_to_yearsdays days in
  let '(month, day) :=
    month_scan (days_per_month_table (is_leapyear year)) 1 yday in
  (year, month, day).

End Calendar.
Import Calendar.

(** ** Timestamps and Timedeltas *)

Definition NS_PER_DAY : Z := 86400 * 1000000000.

Record Timestamp : Type := mkTimestamp { value : Z }.

(** A [Timedelta] is a signed count of nanoseconds. *)
Definition Timedelta : Type := Z.

Definition Timedelta_days (days : Z) : Timedelta := days * NS_PER_DAY.

(** [td.days]: whole days, rounded towards minus infinity. *)
Definition td_days (td : Timedelta) : Z := td / NS_PER_DAY.

(** [pd.Timestamp(year=, month=, day=)]: midnight of that day. *)
Definition Timestamp_ymd (year month day : Z) : result Timestamp :=
  if valid_date year month day
  then Ok (mkTimestamp (days_from_civil year month day * NS_PER_DAY))
  else Raise ValueError.

Definition ts_daynum (ts : Timestamp) : Z := value ts / NS_PER_DAY.

Definition ts_year (ts : Timestamp) : Z :=
  let '(y, _, _) := civil_from_days (ts_daynum ts) in y.
Definition ts_month (ts : Timestamp) : Z :=
  let '(_, m, _) := civil_from_days (ts_daynum ts) in m.
Definition ts_day (ts : Timestamp) : Z :=
  let '(_, _, d) := civil_from_days (ts_daynum ts) in d.

(** [ts.weekday()]: Monday is 0, Sunday is 6; 1970-01-01 was a Thursday. *)
Definition weekday (ts : Timestamp) : Z := (ts_daynum ts + 3) mod 7.

(** [ts.normalize()]: the time of day set to midnight. *)
Definition normalize (ts : Timestamp) : Timestamp :=
  mkTimestamp (value ts - value ts mod NS_PER_DAY).

Definition ts_add (ts : Timestamp) (td : Timedelta) : Timestamp :=
  mkTimestamp (value ts + td).
Definition ts_sub (ts : Timestamp) (td : Timedelta) : Timestamp :=
  mkTimestamp (value ts - td).
Definition ts_diff (a b : Timestamp) : Timedelta := value a - value b.

Definition ts_eqb (a b : Timestamp) : bool := value a =? value b.
Definition ts_gtb (a b : Timestamp) : bool := value b <? value a.
Definition ts_le (a b : Timestamp) : Prop := value a <= value b.
Definition ts_lt (a b : Timestamp) : Prop := value a < value b.

(** ** Calendar helpers of [utils.py] *)

Definition easter_date (year : Z) : result Timestamp :=
  let a := year mod 19 in
  let b := year / 100 in
  let c := year mod 100 in
  let d := b / 4 in
  let e := b mod 4 in
  let f := (b + 8) / 25 in
  let g := (b - f + 1) / 3 in
  let h := (19 * a + b - d - g + 15) mod 30 in
  let i := c / 4 in
  let k := c mod 4 in
  let l := (32 + 2 * e + 2 * i - h - k) mod 7 in
  let m := (a + 11 * h + 22 * l) / 451 in
  let month := (h + l - 7 * m + 114) / 31 in
  let day := (h + l - 7 * m + 114) mod 31 + 1 in
  Timestamp_ymd year month day.

Definition good_friday (year : Z) : result Timestamp :=
  e <- easter_date year ;;
  Ok (ts_sub e (Timedelta_days 2)).

Definition third_friday (year month : Z) : result Timestamp :=
  first <- Timestamp_ymd year month 1 ;;
  let offset := (4 - weekday first) mod 7 in
  Ok (ts_add first (Timedelta_days (offset + 14))).

Definition spx_monthly_expiration (year month : Z) : result Timestamp :=
  tf <- third_friday year month ;;
  gf <- good_friday year ;;
  if ts_eqb (normalize tf) (normalize gf)
  then Ok (ts_sub tf (Timedelta_days 1))
  else Ok tf.

Definition vix_monthly_settlement_for_month (year month : Z)
  : result Timestamp :=
  let '(y2, m2) := if month =? 12 then (year + 1, 1) else (year, month + 1) in
  spx_exp_next <- spx_monthly_expiration y2 m2 ;;
  Ok (ts_sub spx_exp_next (Timedelta_days 30)).

Definition next_vix_monthly_settlement (ts : Timestamp) : result Timestamp :=
  cand <- vix_monthly_settlement_for_month (ts_year ts) (ts_month ts) ;;
  if ts_gtb (normalize ts) (normalize cand) then
    let '(y, m) := if ts_month ts =? 12 then (ts_year ts + 1, 1)
                   else (ts_year ts, ts_month ts + 1) in
    vix_monthly_settlement_for_month y m
  else Ok cand.

Definition next_two_vix_settlements (ts : Timestamp)
  : result (Timestamp * Timestamp) :=
  first <- vix_monthly_settlement_for_month (ts_year ts) (ts_month ts) ;;
  if ts_gtb (normalize ts) (normalize first) then
    let '(y, m) := if ts_month ts =? 12 then (ts_year ts + 1, 1)
                   else (ts_year ts, ts_month ts + 1) in
    first <- vix_monthly_settlement_for_month y m ;;
    let '(y2, m2) := if m =? 12 then (y + 1, 1) else (y, m + 1) in
    second <- vix_monthly_settlement_for_month y2 m2 ;;
    Ok (first, second)
  else
    let '(y, m) := if ts_month ts =? 12 then (ts_year ts + 1, 1)
                   else (ts_year ts, ts_month ts + 1) in
    second <- vix_monthly_settlement_for_month y m ;;
    Ok (first, second).

(** ** Date-indexed tables *)

(** A cell holds a Timestamp, an integer or any other value. *)
Inductive cell : Type :=
| CTime (t : Timestamp)
| CInt (n : Z)
| CObj (s : string).

Definition column : Type := list cell.

(** A [DataFrame] is its index and its labelled columns, in order.  It is
    updated in place by the annotation functions, which return it: the
    functions below take the table before the call and give the table
    after it. *)
Record DataFrame : Type := mkDataFrame {
  index : list Timestamp;
  columns : list (string * column)
}.

Definition labels (cols : list (string * column)) : list string :=
  map fst cols.

Definition mem (name : string) (names : list string) : bool :=
  existsb (String.eqb name) names.

Definition has_column (name : string) (cols : list (string * column)) : bool :=
  mem name (labels cols).

Definition overwrite (name : string) (col : column) (kc : string * column)
  : string * column :=
  if String.eqb (fst kc) name then (fst kc, col) else kc.

(** [df[name] = col]: overwrite the column carrying the label, or append a
    new column when there is none. *)
Definition set_column (name : string) (col : column)
    (cols : list (string * column)) : list (string * column) :=
  if has_column name cols
  then map (overwrite name col) cols
  else cols ++ [(name, col)].

(** [df[name]] where the label occurs once: with a repeated label the
    library gives a table, not a column, so the results on
    [add_days_to_next_two_expiries], which reads columns back, are stated for
    tables whose labels are distinct. *)
Fixpoint get_column (name : string) (cols : list (string * column))
  : result column :=
  match cols with
  | [] => Raise KeyError
  | (k, col) :: rest =>
      if String.eqb k name then Ok col else get_column name rest
  end.

(** [df.drop(columns=names, inplace=True)]: a label that is not there
    raises [KeyError]. *)
Definition drop_columns (names : list string)
    (cols : list (string * column)) : result (list (string * column)) :=
  if forallb (fun n => has_column n cols) names
  then Ok (filter (fun kc => negb (mem (fst kc) names)) cols)
  else Raise KeyError.

(** [series.apply(f)]: the first exception raised by [f] ends the call. *)
Fixpoint apply {A B : Type} (f : A -> result B) (l : list A)
  : result (list B) :=
  match l with
  | [] => Ok []
  | a :: rest =>
      b <- f a ;;
      bs <- apply f rest ;;
      Ok (b :: bs)
  end.

Fixpoint zip_with {A B C : Type} (f : A -> B -> C) (l : list A) (l' : list B)
  : list C :=
  match l, l' with
  | a :: t, b :: t' => f a b :: zip_with f t t'
  | _, _ => []
  end.

(** Smallest integer not below [a / b], for [0 < b]. *)
Definition ceil_div (a b : Z) : Z := - ((- a) / b).

(** [column - df.index] for a column of Timestamps. *)
Fixpoint sub_index (col : column) (idx : list Timestamp)
  : result (list Timedelta) :=
  match col, idx with
  | CTime t :: col', d :: idx' =>
      rest <- sub_index col' idx' ;;
      Ok (ts_diff t d :: rest)
  | [], [] => Ok []
  | _, _ => Raise TypeError
  end.

(** [a - b] for two columns of integers. *)
Fixpoint sub_columns (a b : column) : result column :=
  match a, b with
  | CInt x :: a', CInt y :: b' =>
      rest <- sub_columns a' b' ;;
      Ok (CInt (x - y) :: rest)
  | [], [] => Ok []
  | _, _ => Raise TypeError
  end.

Definition days_to_next_vix_exp : string := "days_to_next_vix_exp".
Definition days_to_next_vix_exp_ceil : string := "days_to_next_vix_exp_ceil".
Definition next_vix_expiration_date : string := "next_vix_expiration_date".

(** [col_name or "next_vix_expiration_date"]. *)
Definition col_name_or_default (col_name : string) : string :=
  if String.eqb col_name "" then next_vix_expiration_date else col_name.

(** The quotient [delta / pd.Timedelta(days=1)] is a float in the source;
    its ceiling is taken here on the exact quotient. *)
Definition add_vix_next_expiration (df : DataFrame) (col_name : string)
  : result DataFrame :=
  let cols_initial := labels (columns df) in
  settle <- apply next_vix_monthly_settlement (index df) ;;
  let floor_days :=
    zip_with (fun s d => CInt (td_days (ts_diff s (normalize d))))
             settle (index df) in
  let cols := set_column days_to_next_vix_exp floor_days (columns df) in
  settle <- apply next_vix_monthly_settlement (index df) ;;
  let ceil_days :=
    zip_with (fun s d => CInt (ceil_div (ts_diff s d) NS_PER_DAY))
             settle (index df) in
  let cols := set_column days_to_next_vix_exp_ceil ceil_days cols in
  let col_name := col_name_or_default col_name in
  let cols_initial := col_name :: cols_initial in
  settle <- apply next_vix_monthly_settlement (index df) ;;
  let cols := set_column col_name (map CTime settle) cols in
  let cols_to_drop :=
    filter (fun n => negb (mem n cols_initial)) (labels cols) in
  cols <- drop_columns cols_to_drop cols ;;
  Ok (mkDataFrame (index df) cols).

Definition next_vix_exp : string := "next_vix_exp".
Definition second_vix_exp : string := "second_vix_exp".
Definition days_to_first_exp : string := "days_to_first_exp".
Definition days_to_second_exp : string := "days_to_second_exp".
Definition duration_second_fut : string := "duration_second_fut".

(** Row by row, [apply] gives the two dates as a table of two columns, which
    is assigned to the two labels.  On an empty index it gives an empty
    Series instead, and the assignment to two labels raises [ValueError]
    (the columns must have the length of the key). *)
Definition add_days_to_next_two_expiries (df : DataFrame)
    (remove_dates : bool) : result DataFrame :=
  match index df with
  | [] => Raise ValueError
  | _ :: _ =>
  pairs <- apply next_two_vix_settlements (index df) ;;
  let cols := set_column next_vix_exp (map (fun p => CTime (fst p)) pairs)
                         (columns df) in
  let cols := set_column second_vix_exp (map (fun p => CTime (snd p)) pairs)
                         cols in
  first <- get_column next_vix_exp cols ;;
  delta <- sub_index first (index df) ;;
  let cols := set_column days_to_first_exp
                         (map (fun td => CInt (td_days td)) delta) cols in
  second <- get_column second_vix_exp cols ;;
  delta <- sub_index second (index df) ;;
  let cols := set_column days_to_second_exp
                         (map (fun td => CInt (td_days td)) delta) cols in
  to_second <- get_column days_to_second_exp cols ;;
  to_first <- get_column days_to_first_exp cols ;;
  duration <- sub_columns to_second to_first ;;
  let cols := set_column duration_second_fut duration cols in
  if remove_dates then
    cols <- drop_columns [next_vix_exp; second_vix_exp] cols ;;
    Ok (mkDataFrame (index df) cols)
  else Ok (mkDataFrame (index df) cols)
  end.

(** ** Spreadsheet dates *)

(** A table as it is read from a file: its index holds any cells, dates
    only once a date column has been made the index. *)
Record Table : Type := mkTable {
  t_index : list cell;
  t_columns : list (string * column)
}.

(** [series.astype(int)] on a column of integers.  The conversion of other
    cells (text read as a number, dates as their nanoseconds) is left out:
    here they raise, and the results on [clean_xl_dates] are stated for
    columns of integers. *)
Definition astype_int (c : cell) : result Z :=
  match c with
  | CInt n => Ok n
  | _ => Raise TypeError
  end.

(** [df.set_index(col, drop=True, inplace=True)]. *)
Definition set_index_drop (col : string) (cols : list (string * column))
  : result Table :=
  idx <- get_column col cols ;;
  Ok (mkTable idx (filter (fun kc => negb (String.eqb (fst kc) col)) cols)).

Definition clean_xl_dates (df : Table) (col : string) (set_index : bool)
  : result Table :=
  epoch <- Timestamp_ymd 1899 12 30 ;;
  serials <- get_column col (t_columns df) ;;
  days <- apply astype_int serials ;;
  let dates := map (fun n => CTime (ts_add epoch (Timedelta_days n))) days in
  let cols := set_column col dates (t_columns df) in
  if set_index then set_index_drop col cols
  else Ok (mkTable (t_index df) cols).

(** * Definitions used in the proofs *)

Fixpoint all_from (f : Z -> bool) (lo : Z) (n : nat) : bool :=
  match n with
  | O => true
  | S n' => f lo && all_from f (lo + 1) n'
  end.

Definition date_eqb (a b : Z * Z * Z) : bool :=
  let '(y1, m1, d1) := a in
  let '(y2, m2, d2) := b in
  (y1 =? y2) && (m1 =? m2) && (d1 =? d2).

(** One 400-year cycle, starting on 2000-01-01 (day 10957). *)
Definition fields_ok_at (y m d : Z) : bool :=
  implb (valid_date y m d)
        (date_eqb (civil_from_days (days_from_civil y m d)) (y, m, d)).
Definition fields_ok_month (y m : Z) : bool := all_from (fields_ok_at y m) 1 31.
Definition fields_ok_year (y : Z) : bool := all_from (fields_ok_month y) 1 12.

Definition days_ok_at (n : Z) : bool :=
  let '(y, m, d) := civil_from_days n in
  valid_date y m d && (days_from_civil y m d =? n).
Definition cycle_length : nat := Z.to_nat days_per_400years.

Definition shift_years (k : Z) (date : Z * Z * Z) : Z * Z * Z :=
  let '(y, m, d) := date in (y + 400 * k, m, d).

(** The month after [(year, month)], December wrapping to January. *)
Definition following_month (year month : Z) : Z * Z :=
  if month =? 12 then (year + 1, 1) else (year, month + 1).

Definition midnight (daynum : Z) : Timestamp :=
  mkTimestamp (daynum * NS_PER_DAY).

(** Every column labelled [k] is [v]. *)
Definition holds (k : string) (v : column) (l : list (string * column))
  : Prop :=
  forall x, In (k, x) l -> x = v.

(** A test on columns that looks at the label only. *)
Definition on_label (p : string -> bool) (kc : string * column) : bool :=
  p (fst kc).

(** The columns that survive the final drop: the date column [c] and the
    columns the table [L] came with. *)
Definition kept (c : string) (L : list (string * column)) (k : string)
  : bool :=
  mem k (c :: labels L).

Definition assign_if (b : bool) (k : string) (v : column)
    (l : list (string * column)) : list (string * column) :=
  if b then set_column k v l else l.

(** The three assignments of [add_vix_next_expiration], to the labels [f],
    [cl] and [c], followed by its drop. *)
Definition vix_columns (f cl c : string) (F C D : column)
    (L : list (string * column)) : list (string * column) :=
  filter (on_label (kept c L))
         (set_column c D (set_column cl C (set_column f F L))).

Definition floor_days (settle idx : list Timestamp) : column :=
  zip_with (fun s d => CInt (td_days (ts_diff s (normalize d)))) settle idx.

Definition ceil_days (settle idx : list Timestamp) : column :=
  zip_with (fun s d => CInt (ceil_div (ts_diff s d) NS_PER_DAY)) settle idx.

(** Days from each index date to the dates [ts], rounded down. *)
Definition days_until (ts idx : list Timestamp) : list Z :=
  map td_days (zip_with ts_diff ts idx).

Definition two_expiry_columns (pairs : list (Timestamp * Timestamp))
    (idx : list Timestamp) (remove_dates : bool)
    (L : list (string * column)) : list (string * column) :=
  let to_first := days_until (map fst pairs) idx in
  let to_second := days_until (map snd pairs) idx in
  let cols :=
    set_column duration_second_fut
      (map CInt (zip_with Z.sub to_second to_first))
      (set_column days_to_second_exp (map CInt to_second)
         (set_column days_to_first_exp (map CInt to_first)
            (set_column second_vix_exp (map CTime (map snd pairs))
               (set_column next_vix_exp (map CTime (map fst pairs)) L)))) in
  if remove_dates
  then filter (on_label (fun k => negb (mem k [next_vix_exp; second_vix_exp])))
              cols
  else cols.

(** * Calendar facts *)

(** ** Bounded checks by evaluation *)

Lemma all_from_spec (f : Z -> bool) (n : nat) :
  forall lo, all_from f lo n = true ->
  forall x, lo <= x < lo + Z.of_nat n -> f x = true.
Proof.
  induction n as [|n IH]; intros lo H x Hx.
  - simpl in Hx. lia.
  - cbn [all_from] in H. apply andb_true_iff in H as [H0 H1].
    destruct (Z.eq_dec x lo) as [->|Hne]; [exact H0|].
    apply (IH (lo + 1) H1). lia.
Qed.

Lemma date_eqb_eq a b : date_eqb a b = true -> a = b.
Proof.
  destruct a as [[y1 m1] d1], b as [[y2 m2] d2]. unfold date_eqb.
  rewrite !andb_true_iff, !Z.eqb_eq. intros [[-> ->] ->]. reflexivity.
Qed.

Lemma cycle_length_Z : Z.of_nat cycle_length = 146097.
Proof. vm_compute. reflexivity. Qed.

Lemma fields_ok_year_eq y :
  fields_ok_year y = all_from (fields_ok_month y) 1 12.
Proof. reflexivity. Qed.

Lemma fields_ok_month_eq y m :
  fields_ok_month y m = all_from (fields_ok_at y m) 1 31.
Proof. reflexivity. Qed.

Lemma cycle_fields_ok_true : all_from fields_ok_year 2000 400 = true.
Proof. vm_compute. reflexivity. Qed.

Lemma cycle_days_ok_true : all_from days_ok_at 10957 cycle_length = true.
Proof. vm_compute. reflexivity. Qed.

(** ** The calendar repeats every 400 years, that is every 146097 days *)

Lemma is_leapyear_shift y k : is_leapyear (y + 400 * k) = is_leapyear y.
Proof.
  unfold is_leapyear.
  replace ((y + 400 * k) mod 4) with (y mod 4)
    by (replace (y + 400 * k) with (y + (100 * k) * 4) by lia;
        now rewrite Z.mod_add).
  replace ((y + 400 * k) mod 100) with (y mod 100)
    by (replace (y + 400 * k) with (y + (4 * k) * 100) by lia;
        now rewrite Z.mod_add).
  replace ((y + 400 * k) mod 400) with (y mod 400)
    by (replace (y + 400 * k) with (y + k * 400) by lia;
        now rewrite Z.mod_add).
  reflexivity.
Qed.

Lemma days_in_month_shift y k m :
  days_in_month (y + 400 * k) m = days_in_month y m.
Proof. unfold days_in_month. now rewrite is_leapyear_shift. Qed.

Lemma valid_date_shift y k m d :
  valid_date (y + 400 * k) m d = valid_date y m d.
Proof. unfold valid_date. now rewrite days_in_month_shift. Qed.

Lemma days_before_year_shift y k :
  days_before_year (y + 400 * k) = days_before_year y + 146097 * k.
Proof.
  unfold days_before_year. cbv zeta.
  replace (y + 400 * k - 1) with (y - 1 + 400 * k) by lia.
  replace ((y - 1 + 400 * k) / 4) with ((y - 1) / 4 + 100 * k)
    by (replace (y - 1 + 400 * k) with (y - 1 + (100 * k) * 4) by lia;
        now rewrite Z.div_add).
  replace ((y - 1 + 400 * k) / 100) with ((y - 1) / 100 + 4 * k)
    by (replace (y - 1 + 400 * k) with (y - 1 + (4 * k) * 100) by lia;
        now rewrite Z.div_add).
  replace ((y - 1 + 400 * k) / 400) with ((y - 1) / 400 + k)
    by (replace (y - 1 + 400 * k) with (y - 1 + k * 400) by lia;
        now rewrite Z.div_add).
  lia.
Qed.

Lemma days_from_civil_shift y k m d :
  days_from_civil (y + 400 * k) m d = days_from_civil y m d + 146097 * k.
Proof.
  unfold days_from_civil, days_before_month.
  rewrite days_before_year_shift, is_leapyear_shift. lia.
Qed.

Lemma civil_from_days_shift n k :
  civil_from_days (n + 146097 * k) = shift_years k (civil_from_days n).
Proof.
  unfold civil_from_days, days_to_yearsdays. cbv zeta.
  change days_per_400years with 146097.
  replace (n + 146097 * k - (365 * 30 + 7))
    with (n - (365 * 30 + 7) + k * 146097) by lia.
  rewrite Z.div_add, Z.mod_add by lia.
  set (q := (n - (365 * 30 + 7)) / 146097).
  set (r := (n - (365 * 30 + 7)) mod 146097).
  replace (400 * (q + k)) with (400 * q + 400 * k) by lia.
  generalize (400 * q). intro a.
  assert (Hscan : forall yr yd, 
    (let '(month, day) :=
       month_scan (days_per_month_table (is_leapyear (yr + 400 * k + 2000))) 1 yd in
     (yr + 400 * k + 2000, month, day)) =
    shift_years k
      (let '(month, day) :=
         month_scan (days_per_month_table (is_leapyear (yr + 2000))) 1 yd in
       (yr + 2000, month, day))).
  { intros yr yd.
    replace (yr + 400 * k + 2000) with (yr + 2000 + 400 * k) by lia.
    rewrite is_leapyear_shift.
    destruct (month_scan _ 1 yd). reflexivity. }
  destruct (366 <=? r).
  - destruct (365 <=? (r - 1) mod (100 * 365 + 25 - 1)).
    + destruct (366 <=? _).
      * rewrite <- Hscan. f_equal; try (f_equal; lia).
        replace (a + 400 * k + 100 * ((r - 1) / (100 * 365 + 25 - 1)) +
                 4 * (((r - 1) mod (100 * 365 + 25 - 1) + 1) / (4 * 365 + 1)) +
                 (((r - 1) mod (100 * 365 + 25 - 1) + 1) mod (4 * 365 + 1) - 1) / 365)
          with (a + 100 * ((r - 1) / (100 * 365 + 25 - 1)) +
                 4 * (((r - 1) mod (100 * 365 + 25 - 1) + 1) / (4 * 365 + 1)) +
                 (((r - 1) mod (100 * 365 + 25 - 1) + 1) mod (4 * 365 + 1) - 1) / 365
                + 400 * k) by lia.
        reflexivity.
      * rewrite <- Hscan.
        replace (a + 400 * k + 100 * ((r - 1) / (100 * 365 + 25 - 1)) +
                 4 * (((r - 1) mod (100 * 365 + 25 - 1) + 1) / (4 * 365 + 1)))
          with (a + 100 * ((r - 1) / (100 * 365 + 25 - 1)) +
                 4 * (((r - 1) mod (100 * 365 + 25 - 1) + 1) / (4 * 365 + 1))
                + 400 * k) by lia.
        reflexivity.
    + rewrite <- Hscan.
      replace (a + 400 * k + 100 * ((r - 1) / (100 * 365 + 25 - 1)))
        with (a + 100 * ((r - 1) / (100 * 365 + 25 - 1)) + 400 * k) by lia.
      reflexivity.
  - rewrite <- Hscan. reflexivity.
Qed.

(** ** Fields and day numbers are inverse to each other *)

Lemma month_cases m : 1 <= m <= 12 ->
  m = 1 \/ m = 2 \/ m = 3 \/ m = 4 \/ m = 5 \/ m = 6 \/
  m = 7 \/ m = 8 \/ m = 9 \/ m = 10 \/ m = 11 \/ m = 12.
Proof. lia. Qed.

Ltac each_month H :=
  destruct (month_cases _ H) as
    [->|[->|[->|[->|[->|[->|[->|[->|[->|[->|[->| ->]]]]]]]]]]].

Lemma days_in_month_bounds y m :
  1 <= m <= 12 -> 28 <= days_in_month y m <= 31.
Proof.
  intros H. unfold days_in_month.
  each_month H; destruct (is_leapyear y); vm_compute; split; discriminate.
Qed.

Lemma valid_date_iff y m d :
  valid_date y m d = true <->
  1 <= m <= 12 /\ 1 <= d <= days_in_month y m.
Proof.
  unfold valid_date. rewrite !andb_true_iff, !Z.leb_le. lia.
Qed.

(** Every year is a year of the cycle 2000..2399 moved by whole cycles. *)
Lemma year_in_cycle y :
  exists y0 k, y = y0 + 400 * k /\ 2000 <= y0 < 2400.
Proof.
  exists (2000 + (y - 2000) mod 400), ((y - 2000) / 400).
  pose proof (Z.div_mod (y - 2000) 400 ltac:(lia)).
  pose proof (Z.mod_pos_bound (y - 2000) 400 ltac:(lia)). lia.
Qed.

Lemma day_in_cycle n :
  exists n0 k, n = n0 + 146097 * k /\ 10957 <= n0 < 10957 + 146097.
Proof.
  exists (10957 + (n - 10957) mod 146097), ((n - 10957) / 146097).
  pose proof (Z.div_mod (n - 10957) 146097 ltac:(lia)).
  pose proof (Z.mod_pos_bound (n - 10957) 146097 ltac:(lia)). lia.
Qed.

Lemma implb_elim (a b : bool) : implb a b = true -> a = true -> b = true.
Proof. destruct a, b; simpl; congruence. Qed.

Lemma cycle_fields y m d :
  2000 <= y < 2400 -> valid_date y m d = true ->
  civil_from_days (days_from_civil y m d) = (y, m, d).
Proof.
  intros Hy Hv.
  pose proof (proj1 (valid_date_iff _ _ _) Hv) as [Hm Hd].
  pose proof (days_in_month_bounds y m Hm) as Hb.
  assert (Cy : fields_ok_year y = true)
    by (apply (all_from_spec fields_ok_year 400 2000 cycle_fields_ok_true);
        lia).
  rewrite fields_ok_year_eq in Cy.
  assert (Cm : fields_ok_month y m = true)
    by (apply (all_from_spec (fields_ok_month y) 12 1 Cy); lia).
  rewrite fields_ok_month_eq in Cm.
  assert (Cd : fields_ok_at y m d = true)
    by (apply (all_from_spec (fields_ok_at y m) 31 1 Cm); lia).
  apply date_eqb_eq. exact (implb_elim _ _ Cd Hv).
Qed.

Lemma cycle_days n :
  10957 <= n < 10957 + 146097 -> days_ok_at n = true.
Proof.
  intros Hn.
  apply (all_from_spec days_ok_at cycle_length 10957 cycle_days_ok_true).
  rewrite cycle_length_Z. exact Hn.
Qed.

Lemma civil_from_days_from_civil y m d :
  valid_date y m d = true ->
  civil_from_days (days_from_civil y m d) = (y, m, d).
Proof.
  intros Hv.
  destruct (year_in_cycle y) as (y0 & k & -> & Hy0).
  rewrite valid_date_shift in Hv.
  rewrite days_from_civil_shift, civil_from_days_shift.
  rewrite (cycle_fields y0 m d Hy0 Hv). reflexivity.
Qed.

Lemma days_from_civil_from_days n :
  forall y m d, civil_from_days n = (y, m, d) ->
  valid_date y m d = true /\ days_from_civil y m d = n.
Proof.
  destruct (day_in_cycle n) as (n0 & k & -> & Hn0).
  rewrite civil_from_days_shift.
  pose proof (cycle_days n0 Hn0) as C. unfold days_ok_at in C.
  destruct (civil_from_days n0) as [[y0 m0] d0].
  intros y m d E.
  assert (y = y0 + 400 * k /\ m = m0 /\ d = d0) as (-> & -> & ->)
    by (unfold shift_years in E; repeat split; congruence).
  apply andb_true_iff in C as [Hv He]. apply Z.eqb_eq in He.
  rewrite valid_date_shift, days_from_civil_shift. split; [exact Hv | lia].
Qed.

(** ** Moving inside a month and from one month to the next *)

Lemma days_from_civil_day y m d :
  days_from_civil y m d = days_from_civil y m 1 + (d - 1).
Proof. unfold days_from_civil. lia. Qed.

Lemma days_before_year_succ y :
  days_before_year (y + 1) =
  days_before_year y + (if is_leapyear y then 366 else 365).
Proof.
  destruct (year_in_cycle y) as (y0 & k & -> & Hy0).
  replace (y0 + 400 * k + 1) with (y0 + 1 + 400 * k) by lia.
  rewrite !days_before_year_shift, is_leapyear_shift.
  assert (C : all_from (fun y =>
            days_before_year (y + 1) =?
            days_before_year y + (if is_leapyear y then 366 else 365))
            2000 400 = true) by (vm_compute; reflexivity).
  pose proof (all_from_spec _ _ _ C y0 ltac:(lia)) as C1. cbv beta in C1.
  apply Z.eqb_eq in C1. lia.
Qed.

Lemma days_before_month_succ y m :
  1 <= m < 12 ->
  days_before_month y (m + 1) = days_before_month y m + days_in_month y m.
Proof.
  intros H. unfold days_before_month, days_in_month.
  generalize (is_leapyear y). intros leap.
  assert (H' : 1 <= m <= 12) by lia.
  each_month H'; try lia; destruct leap; vm_compute; reflexivity.
Qed.

Lemma days_before_month_first y : days_before_month y 1 = 0.
Proof. reflexivity. Qed.

Lemma days_before_month_last y :
  days_before_month y 12 + days_in_month y 12 =
  if is_leapyear y then 366 else 365.
Proof.
  unfold days_before_month, days_in_month.
  destruct (is_leapyear y); vm_compute; reflexivity.
Qed.

Lemma days_from_civil_following y m d :
  1 <= m <= 12 ->
  days_from_civil (fst (following_month y m)) (snd (following_month y m)) d =
  days_from_civil y m 1 + days_in_month y m + (d - 1).
Proof.
  intros H. unfold following_month.
  destruct (Z.eqb_spec m 12) as [->|Hne]; cbn [fst snd]; unfold days_from_civil.
  - rewrite days_before_year_succ, days_before_month_first.
    pose proof (days_before_month_last y). lia.
  - rewrite days_before_month_succ by lia. lia.
Qed.

(** ** Timestamps at midnight *)

Lemma NS_PER_DAY_pos : 0 < NS_PER_DAY.
Proof. reflexivity. Qed.

Lemma ts_daynum_midnight n : ts_daynum (midnight n) = n.
Proof.
  unfold ts_daynum, midnight. cbn [value].
  apply Z.div_mul. pose proof NS_PER_DAY_pos. lia.
Qed.

Lemma normalize_daynum ts : normalize ts = midnight (ts_daynum ts).
Proof.
  unfold normalize, midnight, ts_daynum. f_equal.
  pose proof (Z.div_mod (value ts) NS_PER_DAY) as H.
  pose proof NS_PER_DAY_pos. specialize (H ltac:(lia)).
  rewrite Z.mul_comm. lia.
Qed.

Lemma normalize_midnight n : normalize (midnight n) = midnight n.
Proof. now rewrite normalize_daynum, ts_daynum_midnight. Qed.

Lemma midnight_inj a b : midnight a = midnight b -> a = b.
Proof.
  intros H. apply (f_equal ts_daynum) in H.
  now rewrite !ts_daynum_midnight in H.
Qed.

Lemma ts_add_midnight n k :
  ts_add (midnight n) (Timedelta_days k) = midnight (n + k).
Proof. unfold ts_add, midnight, Timedelta_days. cbn [value]. f_equal. lia. Qed.

Lemma ts_sub_midnight n k :
  ts_sub (midnight n) (Timedelta_days k) = midnight (n - k).
Proof. unfold ts_sub, midnight, Timedelta_days. cbn [value]. f_equal. lia. Qed.

Lemma weekday_midnight n : weekday (midnight n) = (n + 3) mod 7.
Proof. unfold weekday. now rewrite ts_daynum_midnight. Qed.

Lemma ts_eqb_midnight a b : ts_eqb (midnight a) (midnight b) = (a =? b).
Proof.
  unfold ts_eqb, midnight. cbn [value]. pose proof NS_PER_DAY_pos.
  destruct (Z.eqb_spec a b) as [->|Hne].
  - apply Z.eqb_refl.
  - apply Z.eqb_neq. nia.
Qed.

Lemma ts_gtb_midnight a b : ts_gtb (midnight a) (midnight b) = (b <? a).
Proof.
  unfold ts_gtb, midnight. cbn [value]. pose proof NS_PER_DAY_pos.
  destruct (Z.ltb_spec b a).
  - apply Z.ltb_lt. nia.
  - apply Z.ltb_ge. nia.
Qed.

Lemma ts_le_midnight a b : ts_le (midnight a) (midnight b) <-> a <= b.
Proof.
  unfold ts_le, midnight. cbn [value]. pose proof NS_PER_DAY_pos. nia.
Qed.

Lemma ts_lt_midnight a b : ts_lt (midnight a) (midnight b) <-> a < b.
Proof.
  unfold ts_lt, midnight. cbn [value]. pose proof NS_PER_DAY_pos. nia.
Qed.

Lemma Timestamp_ymd_valid y m d :
  valid_date y m d = true ->
  Timestamp_ymd y m d = Ok (midnight (days_from_civil y m d)).
Proof. intros H. unfold Timestamp_ymd. now rewrite H. Qed.

Lemma Timestamp_ymd_invalid y m d :
  valid_date y m d = false -> Timestamp_ymd y m d = Raise ValueError.
Proof. intros H. unfold Timestamp_ymd. now rewrite H. Qed.

(** The calendar fields of the midnight of a valid date. *)
Lemma fields_midnight y m d :
  valid_date y m d = true ->
  ts_year (midnight (days_from_civil y m d)) = y /\
  ts_month (midnight (days_from_civil y m d)) = m /\
  ts_day (midnight (days_from_civil y m d)) = d.
Proof.
  intros H. unfold ts_year, ts_month, ts_day.
  rewrite ts_daynum_midnight, (civil_from_days_from_civil _ _ _ H). auto.
Qed.

(** Every Timestamp lies on a valid day of its own year and month. *)
Lemma ts_fields ts :
  valid_date (ts_year ts) (ts_month ts) (ts_day ts) = true /\
  days_from_civil (ts_year ts) (ts_month ts) (ts_day ts) = ts_daynum ts.
Proof.
  unfold ts_year, ts_month, ts_day.
  destruct (civil_from_days (ts_daynum ts)) as [[y m] d] eqn:E.
  exact (days_from_civil_from_days _ _ _ _ E).
Qed.

(** ** Easter *)

Lemma computus_range a h l :
  0 <= a < 19 -> 0 <= h < 30 -> 0 <= l < 7 ->
  let m := (a + 11 * h + 22 * l) / 451 in
  let month := (h + l - 7 * m + 114) / 31 in
  let day := (h + l - 7 * m + 114) mod 31 + 1 in
  (month = 3 /\ 22 <= day <= 31) \/ (month = 4 /\ 1 <= day <= 25).
Proof.
  intros Ha Hh Hl. cbv zeta.
  Z.div_mod_to_equations. lia.
Qed.

Lemma easter_date_fields year :
  exists month day,
    easter_date year = Ok (midnight (days_from_civil year month day)) /\
    valid_date year month day = true /\
    ((month = 3 /\ 22 <= day <= 31) \/ (month = 4 /\ 1 <= day <= 25)).
Proof.
  unfold easter_date. cbv zeta.
  set (a := year mod 19).
  set (h := (19 * a + year / 100 - year / 100 / 4 -
             (year / 100 - (year / 100 + 8) / 25 + 1) / 3 + 15) mod 30).
  set (l := (32 + 2 * ((year / 100) mod 4) + 2 * (year mod 100 / 4) - h -
             (year mod 100) mod 4) mod 7).
  assert (Ha : 0 <= a < 19) by (apply Z.mod_pos_bound; lia).
  assert (Hh : 0 <= h < 30) by (apply Z.mod_pos_bound; lia).
  assert (Hl : 0 <= l < 7) by (apply Z.mod_pos_bound; lia).
  pose proof (computus_range a h l Ha Hh Hl) as R. cbv zeta in R.
  set (month := (h + l - 7 * ((a + 11 * h + 22 * l) / 451) + 114) / 31) in *.
  set (day := (h + l - 7 * ((a + 11 * h + 22 * l) / 451) + 114) mod 31 + 1) in *.
  assert (Hv : valid_date year month day = true).
  { apply valid_date_iff.
    destruct R as [[-> Hd]|[-> Hd]].
    - change (days_in_month year 3) with 31. lia.
    - change (days_in_month year 4) with 30. lia. }
  exists month, day. split; [|split]; [|exact Hv|exact R].
  apply Timestamp_ymd_valid, Hv.
Qed.

Lemma good_friday_fields year :
  exists month day,
    easter_date year = Ok (midnight (days_from_civil year month day)) /\
    good_friday year = Ok (midnight (days_from_civil year month day - 2)).
Proof.
  destruct (easter_date_fields year) as (month & day & He & _).
  exists month, day. split; [exact He|].
  unfold good_friday. rewrite He. cbn [bind].
  now rewrite ts_sub_midnight.
Qed.

(** ** Third Friday, SPX expiration and VIX settlement as day numbers *)

Lemma valid_date_small y m d :
  1 <= m <= 12 -> 1 <= d <= 28 -> valid_date y m d = true.
Proof.
  intros Hm Hd. apply valid_date_iff.
  pose proof (days_in_month_bounds y m Hm). lia.
Qed.

Lemma third_friday_day y m :
  1 <= m <= 12 ->
  exists D, 15 <= D <= 21 /\
    third_friday y m = Ok (midnight (days_from_civil y m D)) /\
    (days_from_civil y m D + 3) mod 7 = 4.
Proof.
  intros Hm. unfold third_friday.
  rewrite (Timestamp_ymd_valid y m 1) by (apply valid_date_small; lia).
  cbn [bind]. rewrite weekday_midnight, ts_add_midnight.
  set (n := days_from_civil y m 1).
  set (offset := (4 - (n + 3) mod 7) mod 7).
  assert (Ho : 0 <= offset < 7) by (apply Z.mod_pos_bound; lia).
  exists (15 + offset). split; [lia|].
  rewrite (days_from_civil_day y m (15 + offset)). fold n.
  replace (n + (15 + offset - 1)) with (n + (offset + 14)) by lia.
  split; [reflexivity|].
  subst offset. Z.div_mod_to_equations. lia.
Qed.

Lemma third_friday_invalid y m :
  ~ 1 <= m <= 12 -> third_friday y m = Raise ValueError.
Proof.
  intros Hm. unfold third_friday.
  rewrite Timestamp_ymd_invalid; [reflexivity|].
  destruct (valid_date y m 1) eqn:E; [|reflexivity].
  apply valid_date_iff in E. lia.
Qed.

Lemma spx_monthly_expiration_day y m :
  1 <= m <= 12 ->
  exists D, 14 <= D <= 21 /\
    spx_monthly_expiration y m = Ok (midnight (days_from_civil y m D)).
Proof.
  intros Hm. unfold spx_monthly_expiration.
  destruct (third_friday_day y m Hm) as (D & HD & -> & _).
  destruct (good_friday_fields y) as (em & ed & _ & ->).
  cbn [bind]. rewrite !normalize_midnight, ts_eqb_midnight, ts_sub_midnight.
  destruct (_ =? _).
  - exists (D - 1). split; [lia|].
    rewrite (days_from_civil_day y m (D - 1)), (days_from_civil_day y m D).
    do 2 f_equal. lia.
  - exists D. split; [lia|reflexivity].
Qed.

Lemma vix_following y m :
  vix_monthly_settlement_for_month y m =
  (e <- spx_monthly_expiration (fst (following_month y m))
                               (snd (following_month y m)) ;;
   Ok (ts_sub e (Timedelta_days 30))).
Proof.
  unfold vix_monthly_settlement_for_month, following_month.
  destruct (m =? 12); reflexivity.
Qed.

Lemma following_month_valid y m :
  1 <= m <= 12 -> 1 <= snd (following_month y m) <= 12.
Proof.
  intros H. unfold following_month.
  destruct (Z.eqb_spec m 12); cbn [snd]; lia.
Qed.

Lemma vix_settlement_day y m :
  1 <= m <= 12 ->
  exists D, 12 <= D <= 22 /\ valid_date y m D = true /\
    vix_monthly_settlement_for_month y m =
    Ok (midnight (days_from_civil y m D)).
Proof.
  intros Hm. rewrite vix_following.
  destruct (spx_monthly_expiration_day (fst (following_month y m))
              (snd (following_month y m)) (following_month_valid y m Hm))
    as (D1 & HD1 & ->).
  cbn [bind]. rewrite ts_sub_midnight, (days_from_civil_following y m D1 Hm).
  pose proof (days_in_month_bounds y m Hm) as Hb.
  exists (days_in_month y m + D1 - 30). split; [lia|]. split.
  - apply valid_date_iff. lia.
  - rewrite (days_from_civil_day y m (days_in_month y m + D1 - 30)).
    do 2 f_equal. lia.
Qed.

(** ** Rolling forward *)

Lemma vix_settlement_increasing y m a b :
  1 <= m <= 12 ->
  vix_monthly_settlement_for_month y m = Ok a ->
  vix_monthly_settlement_for_month (fst (following_month y m))
                                   (snd (following_month y m)) = Ok b ->
  ts_lt a b.
Proof.
  intros Hm Ha Hb.
  destruct (vix_settlement_day y m Hm) as (D & HD & Hv & E).
  destruct (vix_settlement_day (fst (following_month y m))
              (snd (following_month y m)) (following_month_valid y m Hm))
    as (D2 & HD2 & _ & E2).
  rewrite E in Ha. rewrite E2 in Hb.
  injection Ha as <-. injection Hb as <-.
  apply ts_lt_midnight.
  rewrite (days_from_civil_following y m D2 Hm), (days_from_civil_day y m D).
  apply valid_date_iff in Hv. lia.
Qed.

(** A day of month [(y, m)] is before the settlement of the month after. *)
Lemma following_settlement_after y m d b :
  valid_date y m d = true ->
  vix_monthly_settlement_for_month (fst (following_month y m))
                                   (snd (following_month y m)) = Ok b ->
  days_from_civil y m d < ts_daynum b.
Proof.
  intros Hv Hb. apply valid_date_iff in Hv as [Hm Hd].
  destruct (vix_settlement_day (fst (following_month y m))
              (snd (following_month y m)) (following_month_valid y m Hm))
    as (D2 & HD2 & _ & E2).
  rewrite E2 in Hb. injection Hb as <-.
  rewrite ts_daynum_midnight, (days_from_civil_following y m D2 Hm),
    (days_from_civil_day y m d). lia.
Qed.

Lemma next_vix_monthly_settlement_unfold ts :
  next_vix_monthly_settlement ts =
  (cand <- vix_monthly_settlement_for_month (ts_year ts) (ts_month ts) ;;
   if ts_gtb (normalize ts) (normalize cand)
   then vix_monthly_settlement_for_month
          (fst (following_month (ts_year ts) (ts_month ts)))
          (snd (following_month (ts_year ts) (ts_month ts)))
   else Ok cand).
Proof.
  unfold next_vix_monthly_settlement, following_month.
  destruct (ts_month ts =? 12); reflexivity.
Qed.

Lemma next_two_vix_settlements_unfold ts :
  let fm := following_month (ts_year ts) (ts_month ts) in
  let fm2 := following_month (fst fm) (snd fm) in
  next_two_vix_settlements ts =
  (first <- vix_monthly_settlement_for_month (ts_year ts) (ts_month ts) ;;
   if ts_gtb (normalize ts) (normalize first)
   then (first <- vix_monthly_settlement_for_month (fst fm) (snd fm) ;;
         second <- vix_monthly_settlement_for_month (fst fm2) (snd fm2) ;;
         Ok (first, second))
   else (second <- vix_monthly_settlement_for_month (fst fm) (snd fm) ;;
         Ok (first, second))).
Proof.
  cbv zeta. unfold next_two_vix_settlements, following_month.
  destruct (ts_month ts =? 12); cbn [fst snd]; [reflexivity|].
  destruct (ts_month ts + 1 =? 12); reflexivity.
Qed.

Lemma ts_month_valid ts : 1 <= ts_month ts <= 12.
Proof.
  destruct (ts_fields ts) as [Hv _]. apply valid_date_iff in Hv. tauto.
Qed.

(** * The claims *)

(** C1: for every reference date [ts], [next_vix_monthly_settlement ts]
    returns a date that is on or after [ts] at day granularity; and when the
    day of [ts] is the settlement day of its own month, that settlement is
    returned, not the one of the following month. *)
Theorem next_vix_monthly_settlement_on_or_after (ts : Timestamp) :
  exists r,
    next_vix_monthly_settlement ts = Ok r /\
    ts_le (normalize ts) (normalize r) /\
    (forall c,
        vix_monthly_settlement_for_month (ts_year ts) (ts_month ts) = Ok c ->
        normalize ts = normalize c -> r = c).
Proof.
  rewrite next_vix_monthly_settlement_unfold.
  pose proof (ts_month_valid ts) as Hm.
  destruct (ts_fields ts) as [Hv Hn].
  destruct (vix_settlement_day (ts_year ts) (ts_month ts) Hm)
    as (D & HD & HvD & E).
  destruct (vix_settlement_day
              (fst (following_month (ts_year ts) (ts_month ts)))
              (snd (following_month (ts_year ts) (ts_month ts)))
              (following_month_valid (ts_year ts) (ts_month ts) Hm))
    as (D2 & HD2 & _ & E2).
  rewrite E. cbn [bind].
  rewrite normalize_midnight, (normalize_daynum ts), ts_gtb_midnight.
  destruct (Z.ltb_spec (days_from_civil (ts_year ts) (ts_month ts) D)
                       (ts_daynum ts)) as [Hlt|Hge].
  - exists (midnight (days_from_civil
                        (fst (following_month (ts_year ts) (ts_month ts)))
                        (snd (following_month (ts_year ts) (ts_month ts)))
                        D2)).
    split; [exact E2|]. split.
    + rewrite normalize_midnight. apply ts_le_midnight.
      pose proof (following_settlement_after (ts_year ts) (ts_month ts)
                    (ts_day ts) _ Hv E2) as Hlt2.
      rewrite ts_daynum_midnight in Hlt2. lia.
    + intros c Hc Heq. injection Hc as <-.
      rewrite normalize_midnight in Heq. apply midnight_inj in Heq. lia.
  - exists (midnight (days_from_civil (ts_year ts) (ts_month ts) D)).
    split; [reflexivity|]. split.
    + rewrite normalize_midnight. apply ts_le_midnight. lia.
    + intros c Hc _. now injection Hc.
Qed.

(** C2: for every reference date [ts], [next_two_vix_settlements ts] returns
    a pair whose first component is [next_vix_monthly_settlement ts], whose
    second component is strictly later, and whose components are the
    settlements of some month [(y, m)] and of the month that follows it
    (December being followed by January of the next year). *)
Theorem next_two_vix_settlements_consecutive (ts : Timestamp) :
  exists first second,
    next_two_vix_settlements ts = Ok (first, second) /\
    next_vix_monthly_settlement ts = Ok first /\
    ts_lt first second /\
    exists y m,
      1 <= m <= 12 /\
      vix_monthly_settlement_for_month y m = Ok first /\
      vix_monthly_settlement_for_month (fst (following_month y m))
                                       (snd (following_month y m)) = Ok second.
Proof.
  pose proof (next_two_vix_settlements_unfold ts) as U. cbv zeta in U.
  rewrite U, next_vix_monthly_settlement_unfold. clear U.
  pose proof (ts_month_valid ts) as Hm.
  set (y := ts_year ts) in *. set (m := ts_month ts) in *.
  pose proof (following_month_valid y m Hm) as Hm1.
  set (y1 := fst (following_month y m)) in *.
  set (m1 := snd (following_month y m)) in *.
  pose proof (following_month_valid y1 m1 Hm1) as Hm2.
  destruct (vix_settlement_day y m Hm) as (D & _ & _ & E).
  destruct (vix_settlement_day y1 m1 Hm1) as (D1 & _ & _ & E1).
  destruct (vix_settlement_day (fst (following_month y1 m1))
              (snd (following_month y1 m1)) Hm2) as (D2 & _ & _ & E2).
  rewrite E. cbn [bind].
  destruct (ts_gtb _ _).
  - rewrite E1, E2. cbn [bind]. do 2 eexists. split; [reflexivity|].
    split; [reflexivity|]. split.
    + exact (vix_settlement_increasing y1 m1 _ _ Hm1 E1 E2).
    + exists y1, m1.
      split; [exact Hm1|]. split; [exact E1|exact E2].
  - rewrite E1. cbn [bind]. do 2 eexists. split; [reflexivity|].
    split; [reflexivity|]. split.
    + exact (vix_settlement_increasing y m _ _ Hm E E1).
    + exists y, m. split; [exact Hm|]. split; [exact E|exact E1].
Qed.

(** C3: for every year from 2000 to 2100, Good Friday is Easter Sunday minus
    two days, and Easter Sunday lies between March 22 and April 25 of that
    year, both included. *)
Theorem easter_date_range_2000_2100 (year : Z) :
  2000 <= year <= 2100 ->
  exists e lo hi,
    easter_date year = Ok e /\
    good_friday year = Ok (ts_sub e (Timedelta_days 2)) /\
    Timestamp_ymd year 3 22 = Ok lo /\
    Timestamp_ymd year 4 25 = Ok hi /\
    ts_le lo e /\ ts_le e hi /\
    ts_year e = year /\
    ((ts_month e = 3 /\ 22 <= ts_day e <= 31) \/
     (ts_month e = 4 /\ 1 <= ts_day e <= 25)).
Proof.
  intros _.
  destruct (easter_date_fields year) as (month & day & He & Hv & R).
  exists (midnight (days_from_civil year month day)),
         (midnight (days_from_civil year 3 22)),
         (midnight (days_from_civil year 4 25)).
  split; [exact He|]. split.
  { unfold good_friday. rewrite He. reflexivity. }
  split.
  { apply Timestamp_ymd_valid, valid_date_iff.
    change (days_in_month year 3) with 31. lia. }
  split.
  { apply Timestamp_ymd_valid, valid_date_iff.
    change (days_in_month year 4) with 30. lia. }
  destruct (fields_midnight _ _ _ Hv) as (Fy & Fm & Fd).
  rewrite Fy, Fm, Fd, !ts_le_midnight.
  assert (A : forall d, days_from_civil year 4 d =
                        days_from_civil year 3 1 + 31 + (d - 1)).
  { intros d. apply (days_from_civil_following year 3 d). lia. }
  rewrite (A 25), (days_from_civil_day year 3 22).
  destruct R as [[-> Hd]|[-> Hd]].
  - rewrite (days_from_civil_day year 3 day). repeat split; lia.
  - rewrite (A day). repeat split; lia.
Qed.

Lemma easter_date_range_2000_2100_witness :
  2000 <= 2024 <= 2100 /\
  exists e lo hi,
    easter_date 2024 = Ok e /\
    good_friday 2024 = Ok (ts_sub e (Timedelta_days 2)) /\
    Timestamp_ymd 2024 3 22 = Ok lo /\
    Timestamp_ymd 2024 4 25 = Ok hi /\
    ts_le lo e /\ ts_le e hi /\
    ts_year e = 2024 /\
    ((ts_month e = 3 /\ 22 <= ts_day e <= 31) \/
     (ts_month e = 4 /\ 1 <= ts_day e <= 25)).
Proof.
  split; [lia | apply (easter_date_range_2000_2100 2024); lia].
Defined.

(** C4: for every valid month, [spx_monthly_expiration] is the third Friday,
    unless the third Friday is Good Friday of that year (compared at day
    granularity); then it is the third Friday minus one day, a Thursday. *)
Theorem spx_monthly_expiration_rule (year month : Z) :
  1 <= month <= 12 ->
  exists tf gf,
    third_friday year month = Ok tf /\
    good_friday year = Ok gf /\
    (normalize tf = normalize gf ->
     spx_monthly_expiration year month = Ok (ts_sub tf (Timedelta_days 1)) /\
     weekday (ts_sub tf (Timedelta_days 1)) = 3) /\
    (normalize tf <> normalize gf ->
     spx_monthly_expiration year month = Ok tf).
Proof.
  intros Hm.
  destruct (third_friday_day year month Hm) as (D & HD & Htf & Hwd).
  destruct (good_friday_fields year) as (em & ed & _ & Hgf).
  exists (midnight (days_from_civil year month D)),
         (midnight (days_from_civil year em ed - 2)).
  split; [exact Htf|]. split; [exact Hgf|].
  unfold spx_monthly_expiration. rewrite Htf, Hgf. cbn [bind].
  rewrite !normalize_midnight, ts_eqb_midnight, ts_sub_midnight.
  destruct (Z.eqb_spec (days_from_civil year month D)
                       (days_from_civil year em ed - 2)) as [Heq|Hne].
  - split.
    + intros _. split; [reflexivity|].
      rewrite weekday_midnight.
      revert Hwd. generalize (days_from_civil year month D). intros n Hwd.
      Z.div_mod_to_equations. lia.
    + intros Hdiff. exfalso. apply Hdiff. now rewrite Heq.
  - split.
    + intros Hsame. apply midnight_inj in Hsame. contradiction.
    + intros _. reflexivity.
Qed.

Lemma spx_monthly_expiration_rule_witness :
  1 <= 4 <= 12 /\
  exists tf gf,
    third_friday 2019 4 = Ok tf /\
    good_friday 2019 = Ok gf /\
    (normalize tf = normalize gf ->
     spx_monthly_expiration 2019 4 = Ok (ts_sub tf (Timedelta_days 1)) /\
     weekday (ts_sub tf (Timedelta_days 1)) = 3) /\
    (normalize tf <> normalize gf ->
     spx_monthly_expiration 2019 4 = Ok tf).
Proof.
  split; [lia | apply (spx_monthly_expiration_rule 2019 4); lia].
Defined.

(** C5: for every valid month, the VIX settlement of [(year, month)] is the
    standard expiration of the following month, (year + 1, 1) after
    December, minus 30 days. *)
Theorem vix_settlement_is_following_expiration_minus_30 (year month : Z) :
  1 <= month <= 12 ->
  exists e,
    spx_monthly_expiration (fst (following_month year month))
                           (snd (following_month year month)) = Ok e /\
    vix_monthly_settlement_for_month year month =
    Ok (ts_sub e (Timedelta_days 30)) /\
    following_month year 12 = (year + 1, 1).
Proof.
  intros Hm.
  destruct (spx_monthly_expiration_day (fst (following_month year month))
              (snd (following_month year month))
              (following_month_valid year month Hm)) as (D & _ & E).
  exists (midnight (days_from_civil (fst (following_month year month))
                                    (snd (following_month year month)) D)).
  split; [exact E|]. split; [|reflexivity].
  rewrite vix_following, E. reflexivity.
Qed.

Lemma vix_settlement_is_following_expiration_minus_30_witness :
  1 <= 12 <= 12 /\
  exists e,
    spx_monthly_expiration (fst (following_month 2023 12))
                           (snd (following_month 2023 12)) = Ok e /\
    vix_monthly_settlement_for_month 2023 12 =
    Ok (ts_sub e (Timedelta_days 30)) /\
    following_month 2023 12 = (2023 + 1, 1).
Proof.
  split; [lia
         | apply (vix_settlement_is_following_expiration_minus_30 2023 12);
           lia].
Defined.

(** C6: for every valid month, [third_friday] falls on a Friday (weekday 4,
    Monday being 0) of that month, on a day from the 15th to the 21st. *)
Theorem third_friday_is_friday (year month : Z) :
  1 <= month <= 12 ->
  exists tf,
    third_friday year month = Ok tf /\
    weekday tf = 4 /\
    ts_year tf = year /\ ts_month tf = month /\
    15 <= ts_day tf <= 21.
Proof.
  intros Hm.
  destruct (third_friday_day year month Hm) as (D & HD & Htf & Hwd).
  exists (midnight (days_from_civil year month D)).
  split; [exact Htf|]. rewrite weekday_midnight. split; [exact Hwd|].
  destruct (fields_midnight year month D) as (Fy & Fm & Fd).
  { apply valid_date_small; lia. }
  rewrite Fy, Fm, Fd. auto.
Qed.

Lemma third_friday_is_friday_witness :
  1 <= 3 <= 12 /\
  exists tf,
    third_friday 2024 3 = Ok tf /\
    weekday tf = 4 /\
    ts_year tf = 2024 /\ ts_month tf = 3 /\
    15 <= ts_day tf <= 21.
Proof.
  split; [lia | apply (third_friday_is_friday 2024 3); lia].
Defined.

(** C8 as the code has it: outside 1..12, [third_friday] and
    [spx_monthly_expiration] raise [ValueError] for every month, and
    [vix_monthly_settlement_for_month] raises it for every month but 0;
    for month 0 it returns the standard expiration of January of the same
    year minus 30 days. *)
Theorem month_out_of_range_raises (year month : Z) :
  ~ 1 <= month <= 12 ->
  third_friday year month = Raise ValueError /\
  spx_monthly_expiration year month = Raise ValueError /\
  (month <> 0 ->
   vix_monthly_settlement_for_month year month = Raise ValueError) /\
  (month = 0 ->
   exists e,
     spx_monthly_expiration year 1 = Ok e /\
     vix_monthly_settlement_for_month year month =
     Ok (ts_sub e (Timedelta_days 30))).
Proof.
  intros Hm.
  pose proof (third_friday_invalid year month Hm) as Htf.
  split; [exact Htf|]. split.
  { unfold spx_monthly_expiration. rewrite Htf. reflexivity. }
  split.
  - intros H0. unfold vix_monthly_settlement_for_month.
    destruct (Z.eqb_spec month 12) as [->|_]; [lia|].
    unfold spx_monthly_expiration.
    rewrite (third_friday_invalid year (month + 1)) by lia. reflexivity.
  - intros ->.
    destruct (spx_monthly_expiration_day year 1 ltac:(lia)) as (D & _ & E).
    exists (midnight (days_from_civil year 1 D)). split; [exact E|].
    unfold vix_monthly_settlement_for_month.
    change (0 =? 12) with false. change (0 + 1) with 1. cbv iota.
    rewrite E. reflexivity.
Qed.

Lemma month_out_of_range_raises_witness :
  ~ 1 <= 13 <= 12 /\
  third_friday 2024 13 = Raise ValueError /\
  spx_monthly_expiration 2024 13 = Raise ValueError /\
  (13 <> 0 ->
   vix_monthly_settlement_for_month 2024 13 = Raise ValueError) /\
  (13 = 0 ->
   exists e,
     spx_monthly_expiration 2024 1 = Ok e /\
     vix_monthly_settlement_for_month 2024 13 =
     Ok (ts_sub e (Timedelta_days 30))).
Proof.
  split; [lia | apply (month_out_of_range_raises 2024 13); lia].
Defined.

(** C8 as stated fails: month 0 is outside 1..12, yet
    [vix_monthly_settlement_for_month 2024 0] returns 2023-12-20. *)
Lemma vix_settlement_month_zero_returns :
  ~ 1 <= 0 <= 12 /\
  vix_monthly_settlement_for_month 2024 0 = Timestamp_ymd 2023 12 20 /\
  ~ raises (vix_monthly_settlement_for_month 2024 0).
Proof.
  split; [lia|]. split; [vm_compute; reflexivity|].
  intros [e He]. vm_compute in He. discriminate He.
Qed.

(** C10: for every valid month of a year from 1583 on, the VIX settlement of
    [(year, month)] lies in that same month; hence, for a reference date of
    that month past the settlement, the single roll to the following month
    gives a settlement on or after the reference date. *)
Theorem vix_settlement_in_its_month (year month : Z) :
  1583 <= year -> 1 <= month <= 12 ->
  exists s,
    vix_monthly_settlement_for_month year month = Ok s /\
    ts_year s = year /\ ts_month s = month /\
    forall ts,
      ts_year ts = year -> ts_month ts = month ->
      ts_gtb (normalize ts) (normalize s) = true ->
      exists s',
        next_vix_monthly_settlement ts = Ok s' /\
        vix_monthly_settlement_for_month
          (fst (following_month year month))
          (snd (following_month year month)) = Ok s' /\
        ts_le (normalize ts) (normalize s').
Proof.
  intros _ Hm.
  destruct (vix_settlement_day year month Hm) as (D & HD & Hv & E).
  exists (midnight (days_from_civil year month D)).
  split; [exact E|].
  destruct (fields_midnight year month D Hv) as (Fy & Fm & _).
  split; [exact Fy|]. split; [exact Fm|].
  intros ts Hy Hmo Hgt.
  destruct (vix_settlement_day (fst (following_month year month))
              (snd (following_month year month))
              (following_month_valid year month Hm)) as (D2 & HD2 & _ & E2).
  exists (midnight (days_from_civil (fst (following_month year month))
                                    (snd (following_month year month)) D2)).
  split; [|split; [exact E2|]].
  - rewrite next_vix_monthly_settlement_unfold, Hy, Hmo, E. cbn [bind].
    rewrite Hgt. exact E2.
  - destruct (ts_fields ts) as [Hvts Hn]. rewrite Hy, Hmo in Hvts, Hn.
    pose proof (following_settlement_after year month (ts_day ts) _ Hvts E2)
      as Hlt.
    rewrite ts_daynum_midnight in Hlt.
    rewrite normalize_midnight, (normalize_daynum ts).
    apply ts_le_midnight. lia.
Qed.

Lemma vix_settlement_in_its_month_witness :
  1583 <= 2024 /\ 1 <= 2 <= 12 /\
  exists s,
    vix_monthly_settlement_for_month 2024 2 = Ok s /\
    ts_year s = 2024 /\ ts_month s = 2 /\
    forall ts,
      ts_year ts = 2024 -> ts_month ts = 2 ->
      ts_gtb (normalize ts) (normalize s) = true ->
      exists s',
        next_vix_monthly_settlement ts = Ok s' /\
        vix_monthly_settlement_for_month
          (fst (following_month 2024 2))
          (snd (following_month 2024 2)) = Ok s' /\
        ts_le (normalize ts) (normalize s').
Proof.
  split; [lia|]. split; [lia|].
  apply (vix_settlement_in_its_month 2024 2); lia.
Defined.

(** * Facts on labelled columns *)

Section Columns.

Implicit Types (k : string) (v : column) (l : list (string * column)).

Lemma mem_app k (a b : list string) : mem k (a ++ b) = mem k a || mem k b.
Proof. apply existsb_app. Qed.

Lemma mem_In k (a : list string) : mem k a = true <-> In k a.
Proof.
  unfold mem. rewrite existsb_exists. split.
  - intros (x & Hx & E). apply String.eqb_eq in E. now subst.
  - intros H. exists k. split; [exact H | apply String.eqb_refl].
Qed.

Lemma mem_filter k (p : string -> bool) (a : list string) :
  mem k (filter p a) = mem k a && p k.
Proof.
  induction a as [|x a IH]; [reflexivity|]. cbn [filter].
  destruct (p x) eqn:Px; cbn [mem existsb]; fold (mem k (filter p a));
    fold (mem k a); rewrite IH.
  - destruct (String.eqb_spec k x) as [->|]; [rewrite Px|]; cbn;
      [now rewrite orb_true_r || reflexivity | reflexivity].
  - destruct (String.eqb_spec k x) as [->|]; [rewrite Px|]; cbn;
      [now rewrite andb_false_r | reflexivity].
Qed.

Lemma overwrite_fst k v kc : fst (overwrite k v kc) = fst kc.
Proof. unfold overwrite. now destruct (String.eqb (fst kc) k). Qed.

Lemma labels_overwrite k v l : labels (map (overwrite k v) l) = labels l.
Proof.
  unfold labels. rewrite map_map. apply map_ext. intros. apply overwrite_fst.
Qed.

Lemma labels_set_column k v l :
  labels (set_column k v l) =
  labels l ++ (if has_column k l then [] else [k]).
Proof.
  unfold set_column. destruct (has_column k l).
  - now rewrite labels_overwrite, app_nil_r.
  - unfold labels. now rewrite map_app.
Qed.

Lemma has_column_set_column k k' v l :
  has_column k (set_column k' v l) = has_column k l || String.eqb k k'.
Proof.
  unfold has_column at 1. rewrite labels_set_column, mem_app.
  fold (has_column k l). destruct (has_column k' l) eqn:H.
  - cbn. rewrite orb_false_r.
    destruct (String.eqb_spec k k') as [->|]; [|now rewrite orb_false_r].
    now rewrite H.
  - cbn. now rewrite orb_false_r.
Qed.

Lemma has_column_set_same k v l : has_column k (set_column k v l) = true.
Proof. rewrite has_column_set_column, String.eqb_refl. apply orb_true_r. Qed.

Lemma has_column_In k l : has_column k l = true <-> exists x, In (k, x) l.
Proof.
  unfold has_column. rewrite mem_In. unfold labels. rewrite in_map_iff. split.
  - intros ([k' x] & E & H). cbn in E. subst. now exists x.
  - intros (x & H). now exists (k, x).
Qed.

Lemma holds_app k v l l' : holds k v l -> holds k v l' -> holds k v (l ++ l').
Proof. intros H H' x Hx. apply in_app_or in Hx as [Hx|Hx]; auto. Qed.

Lemma holds_overwrite_same k v l : holds k v (map (overwrite k v) l).
Proof.
  intros x Hx. apply in_map_iff in Hx as ([k' x'] & E & _).
  unfold overwrite in E. cbn [fst] in E.
  destruct (String.eqb_spec k' k); injection E as <- <-; congruence.
Qed.

Lemma holds_overwrite_other k k' v v' l :
  k <> k' -> holds k v l -> holds k v (map (overwrite k' v') l).
Proof.
  intros Hne H x Hx. apply in_map_iff in Hx as ([k0 x0] & E & Hin).
  unfold overwrite in E. cbn [fst] in E.
  destruct (String.eqb_spec k0 k'); injection E as <- <-.
  - congruence.
  - now apply H.
Qed.

Lemma holds_absent k v l : has_column k l = false -> holds k v l.
Proof.
  intros H x Hx. assert (has_column k l = true) by (apply has_column_In; eauto).
  congruence.
Qed.

Lemma holds_set_same k v l : holds k v (set_column k v l).
Proof.
  unfold set_column. destruct (has_column k l) eqn:H.
  - apply holds_overwrite_same.
  - apply holds_app; [now apply holds_absent|].
    intros x [E|[]]. congruence.
Qed.

Lemma holds_set_other k k' v v' l :
  k <> k' -> holds k v l -> holds k v (set_column k' v' l).
Proof.
  intros Hne H. unfold set_column. destruct (has_column k' l).
  - now apply holds_overwrite_other.
  - apply holds_app; [exact H|]. intros x [E|[]]. congruence.
Qed.

Lemma holds_filter k v (p : string * column -> bool) l :
  holds k v l -> holds k v (filter p l).
Proof. intros H x Hx. apply filter_In in Hx as [Hx _]. now apply H. Qed.

Lemma map_fixed {A : Type} (g : A -> A) (a : list A) :
  (forall x, In x a -> g x = x) -> map g a = a.
Proof.
  intros H. induction a as [|x a IH]; [reflexivity|]. cbn [map].
  rewrite (H x (or_introl eq_refl)), IH; [reflexivity|].
  intros y Hy. apply H. now right.
Qed.

Lemma filter_all {A : Type} (p : A -> bool) (a : list A) :
  (forall x, In x a -> p x = true) -> filter p a = a.
Proof.
  intros H. induction a as [|x a IH]; [reflexivity|]. cbn [filter].
  rewrite (H x (or_introl eq_refl)), IH; [reflexivity|].
  intros y Hy. apply H. now right.
Qed.

(** Assigning what is already there changes nothing. *)
Lemma set_column_same k v l :
  has_column k l = true -> holds k v l -> set_column k v l = l.
Proof.
  intros Hh H. unfold set_column. rewrite Hh. apply map_fixed.
  intros [k' x] Hin. unfold overwrite. cbn [fst].
  destruct (String.eqb_spec k' k) as [->|]; [|reflexivity].
  now rewrite (H x Hin).
Qed.

Lemma set_column_absent k v l :
  has_column k l = false -> set_column k v l = l ++ [(k, v)].
Proof. intros H. unfold set_column. now rewrite H. Qed.

Lemma get_column_app k l l' :
  get_column k (l ++ l') =
  if has_column k l then get_column k l else get_column k l'.
Proof.
  induction l as [|[k' x] l IH]; [reflexivity|].
  cbn [app get_column]. unfold has_column, labels. cbn [map mem existsb fst].
  rewrite (String.eqb_sym k k').
  destruct (String.eqb k' k); [reflexivity|]. exact IH.
Qed.

Lemma get_column_holds k v l :
  has_column k l = true -> holds k v l -> get_column k l = Ok v.
Proof.
  induction l as [|[k' x] l IH]; [discriminate|].
  unfold has_column, labels. cbn [map mem existsb fst get_column].
  rewrite (String.eqb_sym k k'). intros Hh H.
  destruct (String.eqb_spec k' k) as [->|Hne].
  - now rewrite (H x (or_introl eq_refl)).
  - apply IH; [exact Hh|]. intros y Hy. apply H. now right.
Qed.

Lemma get_column_set_same k v l : get_column k (set_column k v l) = Ok v.
Proof.
  apply get_column_holds; [apply has_column_set_same | apply holds_set_same].
Qed.

Lemma get_column_overwrite_other k k' v l :
  k <> k' -> get_column k (map (overwrite k' v) l) = get_column k l.
Proof.
  intros Hne. induction l as [|[k0 x] l IH]; [reflexivity|].
  cbn [map]. unfold overwrite at 1. cbn [fst].
  destruct (String.eqb_spec k0 k') as [->|].
  - cbn [get_column]. destruct (String.eqb_spec k' k); [congruence|exact IH].
  - cbn [get_column]. now rewrite IH.
Qed.

Lemma get_column_set_other k k' v l :
  k <> k' -> get_column k (set_column k' v l) = get_column k l.
Proof.
  intros Hne. unfold set_column. destruct (has_column k' l).
  - now apply get_column_overwrite_other.
  - rewrite get_column_app. destruct (has_column k l) eqn:H; [reflexivity|].
    cbn [get_column]. destruct (String.eqb_spec k' k); [congruence|].
    clear -H. induction l as [|[k0 x] l IH]; [reflexivity|].
    revert H. unfold has_column, labels. cbn [map mem existsb fst get_column].
    rewrite (String.eqb_sym k k0). destruct (String.eqb k0 k); [discriminate|].
    exact IH.
Qed.

End Columns.

Section ColumnsFilter.

Implicit Types (k : string) (v : column) (l : list (string * column)).
Variable p : string -> bool.

Lemma labels_filter l : labels (filter (on_label p) l) = filter p (labels l).
Proof.
  induction l as [|[k x] l IH]; [reflexivity|].
  cbn [filter labels map]. unfold on_label at 1. cbn [fst].
  destruct (p k); cbn [labels map]; now f_equal.
Qed.

Lemma has_column_filter k l :
  has_column k (filter (on_label p) l) = has_column k l && p k.
Proof. unfold has_column. now rewrite labels_filter, mem_filter. Qed.

Lemma filter_overwrite k v l :
  filter (on_label p) (map (overwrite k v) l) =
  map (overwrite k v) (filter (on_label p) l).
Proof.
  induction l as [|kc l IH]; [reflexivity|]. cbn [map filter].
  rewrite IH.
  assert (E : on_label p (overwrite k v kc) = on_label p kc)
    by (unfold on_label; now rewrite overwrite_fst).
  rewrite E. destruct (on_label p kc); reflexivity.
Qed.

(** Dropping columns commutes with an assignment made before it. *)
Lemma filter_set_column k v l :
  filter (on_label p) (set_column k v l) =
  if p k then set_column k v (filter (on_label p) l)
  else filter (on_label p) l.
Proof.
  unfold set_column at 1. destruct (has_column k l) eqn:H.
  - rewrite filter_overwrite. destruct (p k) eqn:Pk.
    + unfold set_column. now rewrite has_column_filter, H, Pk.
    + apply map_fixed. intros [k' x] Hin. apply filter_In in Hin as [_ Hp].
      unfold on_label in Hp. cbn [fst] in Hp. unfold overwrite. cbn [fst].
      destruct (String.eqb_spec k' k); [congruence|reflexivity].
  - rewrite filter_app. cbn [filter]. unfold on_label at 2. cbn [fst].
    destruct (p k) eqn:Pk.
    + unfold set_column. now rewrite has_column_filter, H.
    + apply app_nil_r.
Qed.

Lemma get_column_filter k l :
  p k = true -> get_column k (filter (on_label p) l) = get_column k l.
Proof.
  intros Pk. induction l as [|[k' x] l IH]; [reflexivity|].
  cbn [filter get_column]. unfold on_label at 1. cbn [fst].
  destruct (String.eqb_spec k' k) as [->|Hne].
  - rewrite Pk. cbn [get_column]. now rewrite String.eqb_refl.
  - destruct (p k'); [cbn [get_column]|]; rewrite ?IH;
      destruct (String.eqb_spec k' k); congruence.
Qed.

End ColumnsFilter.

Section ColumnsAssign.

Implicit Types (k : string) (v : column) (l : list (string * column)).

Lemma overwrite_twice k v v' kc :
  overwrite k v (overwrite k v' kc) = overwrite k v kc.
Proof.
  unfold overwrite. destruct (String.eqb_spec (fst kc) k) as [E|E]; cbn [fst].
  - rewrite E, String.eqb_refl. reflexivity.
  - destruct (String.eqb_spec (fst kc) k); [contradiction|reflexivity].
Qed.

Lemma overwrite_between k k' v v' v'' kc :
  overwrite k v (overwrite k' v' (overwrite k v'' kc)) =
  overwrite k v (overwrite k' v' kc).
Proof.
  destruct kc as [k0 x]. unfold overwrite. cbn [fst].
  destruct (String.eqb_spec k0 k) as [E|E]; cbn [fst];
    destruct (String.eqb_spec k0 k') as [E'|E']; cbn [fst];
    destruct (String.eqb_spec k0 k); cbn [fst]; congruence.
Qed.

(** A second assignment to a label hides the first. *)
Lemma set_column_twice k v v' l :
  set_column k v (set_column k v' l) = set_column k v l.
Proof.
  unfold set_column at 1. rewrite has_column_set_same.
  unfold set_column. destruct (has_column k l) eqn:H.
  - rewrite map_map. apply map_ext. intros. apply overwrite_twice.
  - rewrite map_app. cbn [map]. unfold overwrite at 2. cbn [fst].
    rewrite String.eqb_refl. f_equal.
    apply map_fixed. intros [k' x] Hin. unfold overwrite. cbn [fst].
    destruct (String.eqb_spec k' k) as [->|]; [|reflexivity].
    assert (has_column k l = true) by (apply has_column_In; eauto).
    congruence.
Qed.

Lemma set_column_between k k' v v' v'' l :
  has_column k l = true -> has_column k' l = true ->
  set_column k v (set_column k' v' (set_column k v'' l)) =
  set_column k v (set_column k' v' l).
Proof.
  intros H H'.
  assert (E : forall a b c l0, has_column a l0 = true ->
            has_column a (set_column b c l0) = true).
  { intros a b c0 l0 Ha. now rewrite has_column_set_column, Ha. }
  unfold set_column at 1. rewrite (E k k' v' _ (E k k v'' l H)).
  unfold set_column at 1. rewrite (E k' k v'' l H').
  unfold set_column at 1. rewrite H.
  unfold set_column at 1. rewrite (E k k' v' l H).
  unfold set_column at 1. rewrite H'.
  rewrite !map_map. apply map_ext. intros. apply overwrite_between.
Qed.

End ColumnsAssign.

(** ** Row-wise application *)

Lemma apply_total {A B : Type} (f : A -> result B) (l : list A) :
  (forall a, exists b, f a = Ok b) -> exists bs, apply f l = Ok bs.
Proof.
  intros H. induction l as [|a l [bs IH]]; [now exists []|].
  destruct (H a) as [b Hb]. exists (b :: bs).
  cbn [apply]. rewrite Hb. cbn [bind]. rewrite IH. reflexivity.
Qed.

Lemma apply_Forall2 {A B : Type} (f : A -> result B) (l : list A) :
  forall bs, apply f l = Ok bs -> Forall2 (fun a b => f a = Ok b) l bs.
Proof.
  induction l as [|a l IH]; intros bs H.
  - injection H as <-. constructor.
  - cbn [apply] in H. destruct (f a) as [b|] eqn:Hb; [|discriminate].
    cbn [bind] in H. destruct (apply f l) as [bs'|]; [|discriminate].
    cbn [bind] in H. injection H as <-. constructor; auto.
Qed.

Lemma next_vix_monthly_settlement_total ts :
  exists r, next_vix_monthly_settlement ts = Ok r.
Proof.
  rewrite next_vix_monthly_settlement_unfold.
  pose proof (ts_month_valid ts) as Hm.
  destruct (vix_settlement_day (ts_year ts) (ts_month ts) Hm)
    as (D & _ & _ & E).
  destruct (vix_settlement_day
              (fst (following_month (ts_year ts) (ts_month ts)))
              (snd (following_month (ts_year ts) (ts_month ts)))
              (following_month_valid (ts_year ts) (ts_month ts) Hm))
    as (D2 & _ & _ & E2).
  rewrite E. cbn [bind]. destruct (ts_gtb _ _); eauto.
Qed.

Lemma next_two_vix_settlements_total ts :
  exists p, next_two_vix_settlements ts = Ok p.
Proof.
  pose proof (next_two_vix_settlements_unfold ts) as U. cbv zeta in U.
  rewrite U. clear U.
  pose proof (ts_month_valid ts) as Hm.
  set (y := ts_year ts) in *. set (m := ts_month ts) in *.
  pose proof (following_month_valid y m Hm) as Hm1.
  set (y1 := fst (following_month y m)) in *.
  set (m1 := snd (following_month y m)) in *.
  pose proof (following_month_valid y1 m1 Hm1) as Hm2.
  destruct (vix_settlement_day y m Hm) as (D & _ & _ & E).
  destruct (vix_settlement_day y1 m1 Hm1) as (D1 & _ & _ & E1).
  destruct (vix_settlement_day (fst (following_month y1 m1))
              (snd (following_month y1 m1)) Hm2) as (D2 & _ & _ & E2).
  rewrite E. cbn [bind].
  destruct (ts_gtb _ _); rewrite E1; cbn [bind]; [rewrite E2; cbn [bind]|];
    eauto.
Qed.

(** ** Dropping what was not there at the start *)

Lemma has_column_labels_In k (cols : list (string * column)) :
  In k (labels cols) -> has_column k cols = true.
Proof. intros H. now apply mem_In. Qed.

Lemma drop_columns_present names (cols : list (string * column)) :
  (forall n, In n names -> has_column n cols = true) ->
  drop_columns names cols =
  Ok (filter (on_label (fun k => negb (mem k names))) cols).
Proof.
  intros H. unfold drop_columns.
  replace (forallb (fun n => has_column n cols) names) with true;
    [reflexivity|].
  symmetry. apply forallb_forall. exact H.
Qed.

Lemma drop_columns_not_initial init (cols : list (string * column)) :
  drop_columns (filter (fun n => negb (mem n init)) (labels cols)) cols =
  Ok (filter (on_label (fun k => mem k init)) cols).
Proof.
  rewrite drop_columns_present.
  - f_equal. apply filter_ext_in. intros [k x] Hin. unfold on_label.
    cbn [fst]. rewrite mem_filter.
    assert (Hk : mem k (labels cols) = true).
    { apply mem_In. unfold labels. apply in_map_iff. now exists (k, x). }
    rewrite Hk. cbn. apply negb_involutive.
  - intros n Hn. apply filter_In in Hn as [Hn _].
    now apply has_column_labels_In.
Qed.

Lemma get_column_absent k (l : list (string * column)) :
  has_column k l = false -> get_column k l = Raise KeyError.
Proof.
  induction l as [|[k' x] l IH]; [reflexivity|].
  unfold has_column, labels. cbn [map mem existsb fst get_column].
  rewrite (String.eqb_sym k k'). destruct (String.eqb k' k); [discriminate|].
  exact IH.
Qed.

(** ** The columns left by [add_vix_next_expiration] *)

Section VixColumns.

Variables (f cl c : string) (F C D : column).
Hypothesis f_cl : f <> cl.

Lemma kept_eq L k : kept c L k = String.eqb k c || has_column k L.
Proof. reflexivity. Qed.

Lemma kept_c L : kept c L c = true.
Proof. rewrite kept_eq, String.eqb_refl. reflexivity. Qed.

Lemma kept_present L k : has_column k L = true -> kept c L k = true.
Proof. intros H. rewrite kept_eq, H. apply orb_true_r. Qed.

Lemma filter_kept L : filter (on_label (kept c L)) L = L.
Proof.
  apply filter_all. intros [k x] Hin. unfold on_label. cbn [fst].
  apply kept_present, has_column_In. eauto.
Qed.

Lemma vix_columns_eq L :
  vix_columns f cl c F C D L =
  set_column c D
    (assign_if (kept c L cl) cl C (assign_if (kept c L f) f F L)).
Proof.
  unfold vix_columns, assign_if.
  rewrite !filter_set_column, kept_c, filter_kept. reflexivity.
Qed.

Lemma has_vix_columns L k :
  has_column k (vix_columns f cl c F C D L) = has_column k L || String.eqb k c.
Proof.
  rewrite vix_columns_eq, has_column_set_column.
  unfold assign_if. rewrite !kept_eq.
  destruct (String.eqb_spec k c) as [->|Hk];
    [now rewrite !orb_true_r|rewrite !orb_false_r].
  destruct (String.eqb_spec cl c) as [->|Hcl], (String.eqb_spec f c) as [->|Hf];
    cbn [orb];
    repeat match goal with
    | |- context [if has_column ?a L then _ else _] =>
        let E := fresh "E" in destruct (has_column a L) eqn:E
    end;
    rewrite ?has_column_set_column;
    repeat match goal with
    | |- context [String.eqb ?a ?b] =>
        destruct (String.eqb_spec a b); subst
    end;
    cbn; rewrite ?orb_false_r, ?orb_true_r; congruence.
Qed.

Lemma labels_vix_columns L :
  labels (vix_columns f cl c F C D L) =
  labels L ++ (if has_column c L then [] else [c]).
Proof.
  rewrite vix_columns_eq, labels_set_column. unfold assign_if.
  rewrite !kept_eq.
  destruct (String.eqb_spec cl c) as [->|Hcl], (String.eqb_spec f c) as [->|Hf];
    try congruence; cbn [orb];
    repeat match goal with
    | |- context [if has_column ?a L then _ else _] =>
        let E := fresh "E" in destruct (has_column a L) eqn:E
    end;
    rewrite ?labels_set_column, ?has_column_set_column, ?String.eqb_refl;
    repeat match goal with
    | H : has_column ?a L = _ |- _ => rewrite H
    end;
    repeat match goal with
    | |- context [String.eqb ?a ?b] =>
        destruct (String.eqb_spec a b); subst
    end;
    cbn; rewrite ?app_nil_r, <- ?app_assoc; try congruence; reflexivity.
Qed.

Lemma index_column_vix L : get_column c (vix_columns f cl c F C D L) = Ok D.
Proof.
  unfold vix_columns. rewrite get_column_filter by apply kept_c.
  apply get_column_set_same.
Qed.

Lemma floor_column_vix L :
  has_column f L = true -> f <> c -> get_column f (vix_columns f cl c F C D L) = Ok F.
Proof.
  intros H Hne. unfold vix_columns.
  rewrite get_column_filter by now apply kept_present.
  rewrite !get_column_set_other by assumption.
  apply get_column_set_same.
Qed.

Lemma ceil_column_vix L :
  has_column cl L = true -> cl <> c -> get_column cl (vix_columns f cl c F C D L) = Ok C.
Proof.
  intros H Hne. unfold vix_columns.
  rewrite get_column_filter by now apply kept_present.
  rewrite get_column_set_other by assumption.
  apply get_column_set_same.
Qed.

Lemma other_column_vix L k :
  k <> f -> k <> cl -> k <> c ->
  get_column k (vix_columns f cl c F C D L) = get_column k L.
Proof.
  intros Hf Hcl Hc. destruct (has_column k L) eqn:H.
  - unfold vix_columns. rewrite get_column_filter by now apply kept_present.
    now rewrite !get_column_set_other.
  - rewrite (get_column_absent k L H). apply get_column_absent.
    rewrite has_vix_columns, H. cbn. now apply String.eqb_neq.
Qed.

Lemma kept_vix_columns L k : kept c (vix_columns f cl c F C D L) k = kept c L k.
Proof.
  rewrite !kept_eq, has_vix_columns.
  destruct (String.eqb k c), (has_column k L); reflexivity.
Qed.

Lemma holds_assign_if b k k' v v' l :
  k <> k' -> holds k v l -> holds k v (assign_if b k' v' l).
Proof.
  intros Hne H. unfold assign_if. destruct b; [|exact H].
  now apply holds_set_other.
Qed.

Lemma has_column_assign_if b k k' v l :
  has_column k l = true -> has_column k (assign_if b k' v l) = true.
Proof.
  intros H. unfold assign_if. destruct b; [|exact H].
  now rewrite has_column_set_column, H.
Qed.

(** Annotating the annotated columns gives them back. *)
Lemma vix_columns_idem L : vix_columns f cl c F C D (vix_columns f cl c F C D L) = vix_columns f cl c F C D L.
Proof.
  rewrite (vix_columns_eq (vix_columns f cl c F C D L)), !kept_vix_columns.
  set (X := vix_columns f cl c F C D L).
  assert (HcX : has_column c X = true).
  { unfold X. rewrite has_vix_columns, String.eqb_refl. apply orb_true_r. }
  assert (HDX : holds c D X).
  { unfold X. rewrite vix_columns_eq. apply holds_set_same. }
  assert (HfX : kept c L f = true -> has_column f X = true).
  { intros K. unfold X. rewrite has_vix_columns, orb_comm. exact K. }
  assert (HclX : kept c L cl = true -> has_column cl X = true).
  { intros K. unfold X. rewrite has_vix_columns, orb_comm. exact K. }
  assert (HF : f <> c -> kept c L f = true -> holds f F X).
  { intros Hne K. unfold X. rewrite vix_columns_eq, K.
    apply holds_set_other; [exact Hne|].
    apply holds_assign_if; [exact f_cl|]. apply holds_set_same. }
  assert (HC : cl <> c -> kept c L cl = true -> holds cl C X).
  { intros Hne K. unfold X. rewrite vix_columns_eq, K.
    apply holds_set_other; [exact Hne|]. apply holds_set_same. }
  assert (Sf : f <> c -> assign_if (kept c L f) f F X = X).
  { intros Hne. unfold assign_if. destruct (kept c L f) eqn:K; [|reflexivity].
    apply set_column_same; auto. }
  assert (Scl : cl <> c -> assign_if (kept c L cl) cl C X = X).
  { intros Hne. unfold assign_if. destruct (kept c L cl) eqn:K; [|reflexivity].
    apply set_column_same; auto. }
  destruct (String.eqb_spec f c) as [Efc|Hfc].
  - assert (Hclc : cl <> c) by congruence.
    assert (Kf : kept c L f = true) by (rewrite Efc; apply kept_c).
    rewrite Kf. cbn [assign_if].
    rewrite Efc. unfold assign_if at 1. destruct (kept c L cl) eqn:K.
    + rewrite set_column_between by auto.
      pose proof (Scl Hclc) as S. unfold assign_if in S.
      rewrite S. now apply set_column_same.
    + rewrite set_column_twice. now apply set_column_same.
  - rewrite (Sf Hfc).
    destruct (String.eqb_spec cl c) as [Eclc|Hclc].
    + assert (Kcl : kept c L cl = true) by (rewrite Eclc; apply kept_c).
      rewrite Kcl. cbn [assign_if]. rewrite Eclc, set_column_twice.
      now apply set_column_same.
    + rewrite (Scl Hclc). now apply set_column_same.
Qed.

End VixColumns.

(** ** [add_vix_next_expiration] in closed form *)

Lemma label_floor_ceil : days_to_next_vix_exp <> days_to_next_vix_exp_ceil.
Proof. discriminate. Qed.

Lemma add_vix_next_expiration_eq df col_name settle :
  apply next_vix_monthly_settlement (index df) = Ok settle ->
  add_vix_next_expiration df col_name =
  Ok (mkDataFrame (index df)
        (vix_columns days_to_next_vix_exp days_to_next_vix_exp_ceil
           (col_name_or_default col_name)
           (floor_days settle (index df)) (ceil_days settle (index df))
           (map CTime settle) (columns df))).
Proof.
  intros H. unfold add_vix_next_expiration. cbv zeta.
  rewrite H. cbn [bind]. rewrite drop_columns_not_initial. reflexivity.
Qed.

(** ** [add_days_to_next_two_expiries] in closed form *)

Lemma apply_length {A B : Type} (f : A -> result B) (l : list A) :
  forall bs, apply f l = Ok bs -> List.length bs = List.length l.
Proof.
  intros bs H. apply apply_Forall2 in H.
  symmetry. eapply Forall2_length. exact H.
Qed.

Lemma sub_index_times (ts idx : list Timestamp) :
  List.length ts = List.length idx ->
  sub_index (map CTime ts) idx = Ok (zip_with ts_diff ts idx).
Proof.
  revert idx. induction ts as [|t ts IH]; intros [|d idx] H;
    try discriminate H; [reflexivity|].
  cbn [map sub_index zip_with]. rewrite IH by (cbn in H; lia). reflexivity.
Qed.

Lemma sub_columns_ints (a b : list Z) :
  List.length a = List.length b ->
  sub_columns (map CInt a) (map CInt b) = Ok (map CInt (zip_with Z.sub a b)).
Proof.
  revert b. induction a as [|x a IH]; intros [|y b] H;
    try discriminate H; [reflexivity|].
  cbn [map sub_columns zip_with]. rewrite IH by (cbn in H; lia). reflexivity.
Qed.

Lemma zip_with_length {A B C : Type} (g : A -> B -> C) (a : list A) :
  forall b, List.length a = List.length b -> List.length (zip_with g a b) = List.length a.
Proof.
  induction a as [|x a IH]; intros [|y b] H; try discriminate H;
    [reflexivity|].
  cbn [zip_with List.length]. f_equal. apply IH. cbn in H. lia.
Qed.

Ltac labels_differ := unfold next_vix_exp, second_vix_exp, days_to_first_exp,
  days_to_second_exp, duration_second_fut; discriminate.

Lemma add_days_to_next_two_expiries_eq df remove_dates pairs :
  index df <> [] ->
  apply next_two_vix_settlements (index df) = Ok pairs ->
  add_days_to_next_two_expiries df remove_dates =
  Ok (mkDataFrame (index df)
        (two_expiry_columns pairs (index df) remove_dates (columns df))).
Proof.
  intros Hne H. pose proof (apply_length _ _ _ H) as Hlen.
  unfold add_days_to_next_two_expiries. cbv zeta.
  destruct (index df) as [|d0 idx0] eqn:Eidx; [congruence|].
  rewrite <- Eidx in *. clear Hne.
  rewrite H. cbn [bind].
  rewrite <- !(map_map fst CTime), <- !(map_map snd CTime).
  rewrite get_column_set_other by labels_differ.
  rewrite get_column_set_same. cbn [bind].
  rewrite sub_index_times by now rewrite length_map. cbn [bind].
  rewrite <- (map_map td_days CInt).
  rewrite get_column_set_other by labels_differ.
  rewrite get_column_set_same. cbn [bind].
  rewrite sub_index_times by now rewrite length_map. cbn [bind].
  rewrite <- (map_map td_days CInt).
  rewrite get_column_set_same. cbn [bind].
  rewrite get_column_set_other by labels_differ.
  rewrite get_column_set_same. cbn [bind].
  rewrite sub_columns_ints
    by (rewrite !length_map, !zip_with_length; rewrite ?length_map; lia).
  cbn [bind]. unfold two_expiry_columns, days_until. cbv zeta.
  destruct remove_dates; [|reflexivity].
  rewrite drop_columns_present; [reflexivity|].
  intros n [<-|[<-|[]]]; rewrite !has_column_set_column;
    rewrite ?String.eqb_refl, ?orb_true_r; reflexivity.
Qed.

Lemma filter_set_column_keep (p : string -> bool) k v l :
  p k = true ->
  filter (on_label p) (set_column k v l) =
  set_column k v (filter (on_label p) l).
Proof. intros H. now rewrite filter_set_column, H. Qed.

Lemma filter_set_column_drop (p : string -> bool) k v l :
  p k = false ->
  filter (on_label p) (set_column k v l) = filter (on_label p) l.
Proof. intros H. now rewrite filter_set_column, H. Qed.

Lemma two_expiry_columns_idem pairs idx remove_dates L :
  two_expiry_columns pairs idx remove_dates
    (two_expiry_columns pairs idx remove_dates L) =
  two_expiry_columns pairs idx remove_dates L.
Proof.
  unfold two_expiry_columns. cbv zeta.
  set (N1 := map CTime (map fst pairs)).
  set (N2 := map CTime (map snd pairs)).
  set (D1 := map CInt (days_until (map fst pairs) idx)).
  set (D2 := map CInt (days_until (map snd pairs) idx)).
  set (U := map CInt (zip_with Z.sub _ _)).
  assert (again : forall L0,
    (remove_dates = false ->
     has_column next_vix_exp L0 = true /\ holds next_vix_exp N1 L0 /\
     has_column second_vix_exp L0 = true /\ holds second_vix_exp N2 L0) ->
    has_column days_to_first_exp L0 = true ->
    holds days_to_first_exp D1 L0 ->
    has_column days_to_second_exp L0 = true ->
    holds days_to_second_exp D2 L0 ->
    has_column duration_second_fut L0 = true ->
    holds duration_second_fut U L0 ->
    (if remove_dates
     then filter (on_label (fun k => negb (mem k [next_vix_exp; second_vix_exp])))
                 L0 = L0
     else True) ->
    (if remove_dates
     then filter (on_label (fun k => negb (mem k [next_vix_exp; second_vix_exp])))
            (set_column duration_second_fut U
               (set_column days_to_second_exp D2
                  (set_column days_to_first_exp D1
                     (set_column second_vix_exp N2
                        (set_column next_vix_exp N1 L0)))))
     else set_column duration_second_fut U
            (set_column days_to_second_exp D2
               (set_column days_to_first_exp D1
                  (set_column second_vix_exp N2
                     (set_column next_vix_exp N1 L0))))) = L0).
  { intros L0 Hn H1 V1 H2 V2 H3 V3 Hfil. destruct remove_dates.
    - rewrite !filter_set_column_keep by reflexivity.
      rewrite !filter_set_column_drop by reflexivity.
      rewrite Hfil.
      rewrite (set_column_same days_to_first_exp D1 L0 H1 V1).
      rewrite (set_column_same days_to_second_exp D2 L0 H2 V2).
      apply (set_column_same duration_second_fut U L0 H3 V3).
    - destruct (Hn eq_refl) as (Hn1 & Vn1 & Hn2 & Vn2).
      rewrite (set_column_same next_vix_exp N1 L0 Hn1 Vn1).
      rewrite (set_column_same second_vix_exp N2 L0 Hn2 Vn2).
      rewrite (set_column_same days_to_first_exp D1 L0 H1 V1).
      rewrite (set_column_same days_to_second_exp D2 L0 H2 V2).
      apply (set_column_same duration_second_fut U L0 H3 V3). }
  set (S := set_column duration_second_fut U
              (set_column days_to_second_exp D2
                 (set_column days_to_first_exp D1
                    (set_column second_vix_exp N2
                       (set_column next_vix_exp N1 L))))).
  assert (HS : has_column next_vix_exp S = true /\ holds next_vix_exp N1 S /\
               has_column second_vix_exp S = true /\
               holds second_vix_exp N2 S /\
               has_column days_to_first_exp S = true /\
               holds days_to_first_exp D1 S /\
               has_column days_to_second_exp S = true /\
               holds days_to_second_exp D2 S /\
               has_column duration_second_fut S = true /\
               holds duration_second_fut U S).
  { unfold S. repeat split;
      try (rewrite !has_column_set_column, ?String.eqb_refl, ?orb_true_r;
           reflexivity);
      repeat first [ apply holds_set_same
                   | apply holds_set_other; [labels_differ|] ]. }
  destruct HS as (Hn1 & Vn1 & Hn2 & Vn2 & H1 & V1 & H2 & V2 & H3 & V3).
  destruct remove_dates eqn:Eb.
  - set (p := on_label (fun k => negb (mem k [next_vix_exp; second_vix_exp]))).
    apply (again (filter p S)).
    + discriminate.
    + unfold p. rewrite has_column_filter, H1. reflexivity.
    + now apply holds_filter.
    + unfold p. rewrite has_column_filter, H2. reflexivity.
    + now apply holds_filter.
    + unfold p. rewrite has_column_filter, H3. reflexivity.
    + now apply holds_filter.
    + apply filter_all. intros x Hx. apply filter_In in Hx. tauto.
  - apply (again S); auto.
Qed.

(** ** The table annotations *)

Lemma settlements_of_index (idx : list Timestamp) :
  exists settle, apply next_vix_monthly_settlement idx = Ok settle.
Proof. apply apply_total. exact next_vix_monthly_settlement_total. Qed.

Lemma settlement_pairs_of_index (idx : list Timestamp) :
  exists pairs, apply next_two_vix_settlements idx = Ok pairs.
Proof. apply apply_total. exact next_two_vix_settlements_total. Qed.

(** C7 (as the code behaves): [add_vix_next_expiration] always returns.  The
    index is unchanged; the only label it adds is the date column's
    ([col_name], or [next_vix_expiration_date] when [col_name] is empty), put
    last unless the table had it; that column holds, row by row, the next
    settlement of the row's date.  The two day-count columns are written only
    where the table already had a column of that name (and the name is not the
    date column's): there they hold the floored and the rounded-up day
    differences.  Every other column is as it was. *)
Theorem add_vix_next_expiration_columns (df : DataFrame) (col_name : string) :
  exists settle r,
    Forall2 (fun d s => next_vix_monthly_settlement d = Ok s)
            (index df) settle /\
    add_vix_next_expiration df col_name = Ok r /\
    index r = index df /\
    let c := col_name_or_default col_name in
    labels (columns r) =
      labels (columns df) ++ (if has_column c (columns df) then [] else [c]) /\
    get_column c (columns r) = Ok (map CTime settle) /\
    (has_column days_to_next_vix_exp (columns df) = true ->
     days_to_next_vix_exp <> c ->
     get_column days_to_next_vix_exp (columns r) =
     Ok (floor_days settle (index df))) /\
    (has_column days_to_next_vix_exp_ceil (columns df) = true ->
     days_to_next_vix_exp_ceil <> c ->
     get_column days_to_next_vix_exp_ceil (columns r) =
     Ok (ceil_days settle (index df))) /\
    (forall k, k <> days_to_next_vix_exp -> k <> days_to_next_vix_exp_ceil ->
               k <> c ->
               get_column k (columns r) = get_column k (columns df)).
Proof.
  destruct (settlements_of_index (index df)) as [settle H].
  exists settle. eexists. split; [now apply apply_Forall2|].
  split; [exact (add_vix_next_expiration_eq df col_name settle H)|].
  cbn [index columns]. split; [reflexivity|]. cbv zeta.
  split; [apply labels_vix_columns; exact label_floor_ceil|].
  split; [apply index_column_vix|].
  split; [apply floor_column_vix; try exact label_floor_ceil|].
  split; [apply ceil_column_vix; try exact label_floor_ceil|].
  intros k. apply other_column_vix; try exact label_floor_ceil.
Qed.

(** C7, the claim as written fails: on a table that has a single column
    [close], annotated under the label [exp], the returned table has the
    columns [close] and [exp] only; neither day-count column is in it. *)
Lemma add_vix_next_expiration_drops_day_counts :
  exists r,
    add_vix_next_expiration
      (mkDataFrame [midnight (days_from_civil 2024 3 1)]
                   [("close"%string, [CInt 5])])
      "exp" = Ok r /\
    columns r =
      [("close"%string, [CInt 5]);
       ("exp"%string, [CTime (midnight (days_from_civil 2024 3 20))])] /\
    has_column days_to_next_vix_exp (columns r) = false /\
    has_column days_to_next_vix_exp_ceil (columns r) = false.
Proof. eexists. vm_compute. repeat split. Qed.

(** C9: annotating an annotated table again, with the same column name or the
    same flag, gives the annotated table back, columns and values alike.
    [add_vix_next_expiration] does so on every table;
    [add_days_to_next_two_expiries] on every table it accepts, one with at
    least one row (and distinct column labels, which its column reads
    need). *)
Theorem annotations_idempotent (df : DataFrame) (col_name : string)
    (remove_dates : bool) :
  (exists r, add_vix_next_expiration df col_name = Ok r /\
             add_vix_next_expiration r col_name = Ok r) /\
  (index df <> [] -> NoDup (labels (columns df)) ->
   exists r, add_days_to_next_two_expiries df remove_dates = Ok r /\
             add_days_to_next_two_expiries r remove_dates = Ok r).
Proof.
  split.
  - destruct (settlements_of_index (index df)) as [settle H].
    eexists. split; [exact (add_vix_next_expiration_eq df col_name settle H)|].
    rewrite (add_vix_next_expiration_eq _ col_name settle) by exact H.
    cbn [index columns]. f_equal. f_equal.
    apply vix_columns_idem. exact label_floor_ceil.
  - intros Hne _.
    destruct (settlement_pairs_of_index (index df)) as [pairs H].
    eexists. split;
      [exact (add_days_to_next_two_expiries_eq df remove_dates pairs Hne H)|].
    rewrite (add_days_to_next_two_expiries_eq _ remove_dates pairs)
      by (cbn [index]; assumption).
    cbn [index columns]. f_equal. f_equal.
    apply two_expiry_columns_idem.
Qed.

Lemma annotations_idempotent_witness :
  (exists r,
     add_vix_next_expiration
       (mkDataFrame [midnight (days_from_civil 2024 3 1)]
                    [("close"%string, [CInt 5])]) "exp" = Ok r /\
     add_vix_next_expiration r "exp" = Ok r) /\
  (exists r,
     add_days_to_next_two_expiries
       (mkDataFrame [midnight (days_from_civil 2024 3 1)]
                    [("close"%string, [CInt 5])]) true = Ok r /\
     add_days_to_next_two_expiries r true = Ok r).
Proof.
  destruct (annotations_idempotent
              (mkDataFrame [midnight (days_from_civil 2024 3 1)]
                           [("close"%string, [CInt 5])]) "exp" true)
    as [H1 H2].
  split; [exact H1|]. apply H2.
  - discriminate.
  - repeat constructor; cbn; intuition discriminate.
Defined.

(** * Further properties of the calendar functions *)

(** ** Easter Sunday *)

(** Leap days up to and including those of [y]. *)
Lemma leap_days_through y :
  (y - 1) / 4 - (y - 1) / 100 + (y - 1) / 400 +
  (if is_leapyear y then 1 else 0) =
  y / 4 - y / 100 + y / 400.
Proof.
  unfold is_leapyear.
  destruct (Z.eqb_spec (y mod 4) 0), (Z.eqb_spec (y mod 100) 0),
    (Z.eqb_spec (y mod 400) 0); cbn [andb orb negb];
    Z.div_mod_to_equations; lia.
Qed.

Lemma days_from_civil_march y :
  days_from_civil y 3 1 =
  365 * (y - 1) + y / 4 - y / 100 + y / 400 - 719103.
Proof.
  pose proof (leap_days_through y) as L.
  unfold days_from_civil, days_before_year, days_before_month, EPOCH_ORDINAL.
  cbv zeta. destruct (is_leapyear y); cbn [Z.to_nat Pos.to_nat]; 
    change (Z.to_nat (3 - 1)) with 2%nat;
    cbn [days_per_month_table firstn fold_right]; lia.
Qed.

Lemma days_from_civil_april y :
  days_from_civil y 4 1 = days_from_civil y 3 1 + 31.
Proof.
  unfold days_from_civil.
  rewrite (days_before_month_succ y 3 ltac:(lia) : days_before_month y 4 = _).
  change (days_in_month y 3) with 31. lia.
Qed.

(** The day number of Easter, counted from the first of March. *)
Lemma easter_date_daynum year :
  exists h l m,
    l = (32 + 2 * ((year / 100) mod 4) + 2 * (year mod 100 / 4) - h -
         (year mod 100) mod 4) mod 7 /\
    easter_date year =
    Ok (midnight (days_from_civil year 3 1 + (h + l - 7 * m + 21))).
Proof.
  unfold easter_date. cbv zeta.
  set (a := year mod 19).
  set (h := (19 * a + year / 100 - year / 100 / 4 -
             (year / 100 - (year / 100 + 8) / 25 + 1) / 3 + 15) mod 30).
  set (l := (32 + 2 * ((year / 100) mod 4) + 2 * (year mod 100 / 4) - h -
             (year mod 100) mod 4) mod 7).
  assert (Ha : 0 <= a < 19) by (apply Z.mod_pos_bound; lia).
  assert (Hh : 0 <= h < 30) by (apply Z.mod_pos_bound; lia).
  assert (Hl : 0 <= l < 7) by (apply Z.mod_pos_bound; lia).
  pose proof (computus_range a h l Ha Hh Hl) as R. cbv zeta in R.
  set (m := (a + 11 * h + 22 * l) / 451) in *.
  exists h, l, m. split; [reflexivity|].
  set (p := h + l - 7 * m + 114) in *.
  assert (Hv : valid_date year (p / 31) (p mod 31 + 1) = true).
  { apply valid_date_iff.
    destruct R as [[-> Hd]|[-> Hd]].
    - change (days_in_month year 3) with 31. lia.
    - change (days_in_month year 4) with 30. lia. }
  rewrite (Timestamp_ymd_valid _ _ _ Hv). do 2 f_equal.
  rewrite days_from_civil_day.
  destruct R as [[E Hd]|[E Hd]]; rewrite E.
  - assert (p mod 31 = p - 93) by (Z.div_mod_to_equations; lia). lia.
  - rewrite days_from_civil_april.
    assert (p mod 31 = p - 124) by (Z.div_mod_to_equations; lia). lia.
Qed.

Lemma easter_is_sunday year h m :
  let l := (32 + 2 * ((year / 100) mod 4) + 2 * (year mod 100 / 4) - h -
            (year mod 100) mod 4) mod 7 in
  (days_from_civil year 3 1 + (h + l - 7 * m + 21) + 3) mod 7 = 6.
Proof.
  cbv zeta. rewrite days_from_civil_march.
  Z.div_mod_to_equations. lia.
Qed.

Lemma good_friday_daynum y :
  exists g,
    easter_date y = Ok (midnight (g + 2)) /\
    good_friday y = Ok (midnight g) /\
    (g + 3) mod 7 = 4 /\
    days_from_civil y 3 1 + 19 <= g <= days_from_civil y 3 1 + 53.
Proof.
  destruct (easter_date_daynum y) as (h & l & m & El & E).
  destruct (easter_date_fields y) as (mo & da & E' & _ & R).
  pose proof (easter_is_sunday y h m) as S. cbv zeta in S. rewrite <- El in S.
  set (n := days_from_civil y 3 1 + (h + l - 7 * m + 21)) in *.
  assert (En : days_from_civil y mo da = n).
  { apply midnight_inj. congruence. }
  exists (n - 2). split; [replace (n - 2 + 2) with n by lia; exact E|].
  split. { unfold good_friday. rewrite E. cbn [bind]. now rewrite ts_sub_midnight. }
  split. { Z.div_mod_to_equations. lia. }
  rewrite <- En, (days_from_civil_day y mo da).
  destruct R as [[-> Hd]|[-> Hd]]; [|rewrite days_from_civil_april]; lia.
Qed.

(** ** The standard expiration as a day number *)

Lemma spx_monthly_expiration_daynum y m :
  1 <= m <= 12 ->
  exists D g,
    15 <= D <= 21 /\
    third_friday y m = Ok (midnight (days_from_civil y m D)) /\
    (days_from_civil y m D + 3) mod 7 = 4 /\
    good_friday y = Ok (midnight g) /\
    (g + 3) mod 7 = 4 /\
    days_from_civil y 3 1 + 19 <= g <= days_from_civil y 3 1 + 53 /\
    spx_monthly_expiration y m =
    Ok (midnight (if days_from_civil y m D =? g
                  then days_from_civil y m D - 1
                  else days_from_civil y m D)).
Proof.
  intros Hm.
  destruct (third_friday_day y m Hm) as (D & HD & Etf & Wtf).
  destruct (good_friday_daynum y) as (g & _ & Egf & Wgf & Rgf).
  exists D, g. repeat (split; [assumption|]).
  unfold spx_monthly_expiration. rewrite Etf, Egf. cbn [bind].
  rewrite !normalize_midnight, ts_eqb_midnight, ts_sub_midnight.
  destruct (_ =? _); reflexivity.
Qed.

(** Within a year, the days up to the 21st of February come before Good
    Friday and the days from the 15th of May on come after it. *)
Lemma days_before_month_march y m :
  1 <= m <= 12 ->
  (m <= 2 -> days_before_month y m + 20 < days_before_month y 3 + 19) /\
  (5 <= m -> days_before_month y 3 + 53 < days_before_month y m + 14).
Proof.
  intros H. unfold days_before_month. generalize (is_leapyear y). intros leap.
  each_month H; split; intros; try lia; destruct leap; vm_compute;
    reflexivity.
Qed.

Lemma third_friday_not_good_friday y m D g :
  1 <= m <= 12 -> m <> 3 -> m <> 4 -> 15 <= D <= 21 ->
  days_from_civil y 3 1 + 19 <= g <= days_from_civil y 3 1 + 53 ->
  (days_from_civil y m D =? g) = false.
Proof.
  intros Hm H3 H4 HD Hg. apply Z.eqb_neq.
  destruct (days_before_month_march y m Hm) as [Lo Hi].
  unfold days_from_civil in *. intros E.
  assert (C : m <= 2 \/ 5 <= m) by lia.
  destruct C as [C|C]; [specialize (Lo C)|specialize (Hi C)]; lia.
Qed.

Lemma td_days_midnight a b : td_days (ts_diff (midnight a) (midnight b)) = a - b.
Proof.
  unfold td_days, ts_diff, midnight. cbn [value].
  replace (a * NS_PER_DAY - b * NS_PER_DAY) with ((a - b) * NS_PER_DAY) by lia.
  apply Z.div_mul. pose proof NS_PER_DAY_pos. lia.
Qed.

(** Two consecutive standard expirations are four or five weeks apart, give
    or take the day of a Good Friday shift. *)
Lemma spx_monthly_expiration_gap y m :
  1 <= m <= 12 ->
  exists a b,
    spx_monthly_expiration y m = Ok (midnight a) /\
    spx_monthly_expiration (fst (following_month y m))
                           (snd (following_month y m)) = Ok (midnight b) /\
    (27 <= b - a <= 29 \/ 34 <= b - a <= 36).
Proof.
  intros Hm.
  destruct (spx_monthly_expiration_daynum y m Hm)
    as (D & g & HD & _ & W & _ & _ & _ & E).
  destruct (spx_monthly_expiration_daynum (fst (following_month y m))
              (snd (following_month y m)) (following_month_valid y m Hm))
    as (D' & g' & HD' & _ & W' & _ & _ & _ & E').
  rewrite E, E'. do 2 eexists. split; [reflexivity|]. split; [reflexivity|].
  rewrite (days_from_civil_following y m D' Hm) in *.
  rewrite (days_from_civil_day y m D) in *.
  pose proof (days_in_month_bounds y m Hm) as Hb.
  set (n := days_from_civil y m 1) in *.
  set (dim := days_in_month y m) in *.
  destruct (_ =? g), (_ =? g'); Z.div_mod_to_equations; lia.
Qed.

(** ** Months in order *)

Lemma following_month_index y m :
  1 <= m <= 12 ->
  12 * fst (following_month y m) + snd (following_month y m) = 12 * y + m + 1.
Proof.
  intros Hm. unfold following_month.
  destruct (Z.eqb_spec m 12); cbn [fst snd]; lia.
Qed.




(** * Properties *)


(** X2: [spx_monthly_expiration] never returns Good Friday: it returns a Friday
    or a Thursday, at midnight, in the month asked for, on a day from the
    14th to the 21st. *)
Theorem spx_monthly_expiration_not_good_friday (year month : Z) :
  1 <= month <= 12 ->
  exists e gf,
    spx_monthly_expiration year month = Ok e /\ good_friday year = Ok gf /\
    e <> gf /\ (weekday e = 4 \/ weekday e = 3) /\
    normalize e = e /\
    ts_year e = year /\ ts_month e = month /\ 14 <= ts_day e <= 21.
Proof.
  intros Hm.
  destruct (spx_monthly_expiration_daynum year month Hm)
    as (D & g & HD & _ & W & Egf & Wg & _ & E).
  rewrite E, Egf. do 2 eexists. split; [reflexivity|]. split; [reflexivity|].
  rewrite weekday_midnight, normalize_midnight.
  set (n := days_from_civil year month D) in *.
  assert (Hn : exists D', 14 <= D' <= 21 /\
                 (if n =? g then n - 1 else n) = days_from_civil year month D').
  { destruct (n =? g).
    - exists (D - 1). split; [lia|]. unfold n.
      rewrite (days_from_civil_day year month D),
        (days_from_civil_day year month (D - 1)). lia.
    - exists D. split; [lia|reflexivity]. }
  split.
  { intros C. apply midnight_inj in C. destruct (Z.eqb_spec n g); lia. }
  split.
  { destruct (n =? g); [right|left]; Z.div_mod_to_equations; lia. }
  split; [reflexivity|].
  destruct Hn as (D' & HD' & ->).
  destruct (fields_midnight year month D'
              (valid_date_small year month D' Hm ltac:(lia)))
    as (Fy & Fm & Fd).
  rewrite Fy, Fm, Fd. repeat split; lia.
Qed.

Lemma spx_monthly_expiration_not_good_friday_witness :
  1 <= 4 <= 12 /\
  exists e gf,
    spx_monthly_expiration 2022 4 = Ok e /\ good_friday 2022 = Ok gf /\
    e <> gf /\ (weekday e = 4 \/ weekday e = 3) /\
    normalize e = e /\
    ts_year e = 2022 /\ ts_month e = 4 /\ 14 <= ts_day e <= 21.
Proof.
  split; [lia | apply (spx_monthly_expiration_not_good_friday 2022 4); lia].
Defined.

(** X3: Outside March and April no third Friday is Good Friday, so there
    [spx_monthly_expiration] is [third_friday]. *)
Theorem spx_monthly_expiration_outside_spring (year month : Z) :
  1 <= month <= 12 -> month <> 3 -> month <> 4 ->
  exists tf,
    third_friday year month = Ok tf /\
    spx_monthly_expiration year month = Ok tf.
Proof.
  intros Hm H3 H4.
  destruct (spx_monthly_expiration_daynum year month Hm)
    as (D & g & HD & Etf & _ & _ & _ & Rg & E).
  rewrite (third_friday_not_good_friday year month D g Hm H3 H4 HD Rg) in E.
  eexists. split; [exact Etf|exact E].
Qed.

Lemma spx_monthly_expiration_outside_spring_witness :
  1 <= 9 <= 12 /\ 9 <> 3 /\ 9 <> 4 /\
  exists tf,
    third_friday 2024 9 = Ok tf /\ spx_monthly_expiration 2024 9 = Ok tf.
Proof.
  split; [lia|]. split; [lia|]. split; [lia|].
  apply (spx_monthly_expiration_outside_spring 2024 9); lia.
Defined.

(** X4: A VIX settlement is at midnight of a Wednesday, or of a Tuesday when the
    third Friday of the following month is Good Friday, which can only be
    for the settlements of February and March. *)
Theorem vix_settlement_weekday (year month : Z) :
  1 <= month <= 12 ->
  exists s,
    vix_monthly_settlement_for_month year month = Ok s /\
    normalize s = s /\
    (weekday s = 2 \/ weekday s = 1) /\
    (month <> 2 -> month <> 3 -> weekday s = 2).
Proof.
  intros Hm. rewrite vix_following.
  pose proof (following_month_valid year month Hm) as V.
  pose proof (following_month_index year month Hm) as I.
  set (y1 := fst (following_month year month)) in *.
  set (m1 := snd (following_month year month)) in *.
  destruct (spx_monthly_expiration_daynum y1 m1 V)
    as (D & g & HD & _ & W & _ & Wg & Rg & E).
  rewrite E. cbn [bind]. eexists. split; [reflexivity|].
  rewrite ts_sub_midnight, normalize_midnight, weekday_midnight.
  split; [reflexivity|]. split.
  - destruct (_ =? g); [right|left]; Z.div_mod_to_equations; lia.
  - intros H2 H3.
    assert (H3' : m1 <> 3).
    { unfold m1, following_month. destruct (Z.eqb_spec month 12);
        cbn [snd]; lia. }
    assert (H4' : m1 <> 4).
    { unfold m1, following_month. destruct (Z.eqb_spec month 12);
        cbn [snd]; lia. }
    rewrite (third_friday_not_good_friday y1 m1 D g V H3' H4' HD Rg).
    Z.div_mod_to_equations. lia.
Qed.

Lemma vix_settlement_weekday_witness :
  1 <= 3 <= 12 /\
  exists s,
    vix_monthly_settlement_for_month 2022 3 = Ok s /\
    normalize s = s /\
    (weekday s = 2 \/ weekday s = 1) /\
    (3 <> 2 -> 3 <> 3 -> weekday s = 2).
Proof.
  split; [lia | apply (vix_settlement_weekday 2022 3); lia].
Defined.

(** The two dates of [next_two_vix_settlements] as day numbers. *)
Lemma next_two_vix_settlements_daynum ts :
  exists n1 n2,
    next_two_vix_settlements ts = Ok (midnight n1, midnight n2) /\
    next_vix_monthly_settlement ts = Ok (midnight n1) /\
    (27 <= n2 - n1 <= 29 \/ 34 <= n2 - n1 <= 36).
Proof.
  pose proof (next_two_vix_settlements_unfold ts) as U. cbv zeta in U.
  rewrite U, next_vix_monthly_settlement_unfold. clear U.
  pose proof (ts_month_valid ts) as Hm.
  set (y := ts_year ts) in *. set (m := ts_month ts) in *.
  pose proof (following_month_valid y m Hm) as Hm1.
  set (y1 := fst (following_month y m)) in *.
  set (m1 := snd (following_month y m)) in *.
  pose proof (following_month_valid y1 m1 Hm1) as Hm2.
  set (y2 := fst (following_month y1 m1)) in *.
  set (m2 := snd (following_month y1 m1)) in *.
  rewrite !vix_following. fold y1 m1 y2 m2.
  destruct (spx_monthly_expiration_gap y1 m1 Hm1) as (a & b & Ea & Eb & G).
  destruct (spx_monthly_expiration_gap y2 m2 Hm2) as (b' & c & Eb' & Ec & G').
  fold y2 m2 in Eb. rewrite Eb in Eb'.
  assert (b' = b) by (injection Eb' as K; apply midnight_inj;
                      unfold midnight; congruence).
  subst b'. rewrite Ea. cbn [bind].
  destruct (ts_gtb _ _).
  - rewrite Eb. cbn [bind]. rewrite Ec. cbn [bind].
    rewrite !ts_sub_midnight.
    do 2 eexists. split; [reflexivity|]. split; [reflexivity|]. lia.
  - rewrite Eb. cbn [bind]. rewrite !ts_sub_midnight.
    do 2 eexists. split; [reflexivity|]. split; [reflexivity|]. lia.
Qed.

(** ** The next settlement *)

Lemma ts_daynum_normalize ts : ts_daynum (normalize ts) = ts_daynum ts.
Proof. now rewrite normalize_daynum, ts_daynum_midnight. Qed.

Lemma ts_fields_normalize ts :
  ts_year (normalize ts) = ts_year ts /\
  ts_month (normalize ts) = ts_month ts /\
  ts_day (normalize ts) = ts_day ts.
Proof.
  unfold ts_year, ts_month, ts_day. now rewrite ts_daynum_normalize.
Qed.

Lemma normalize_idem ts : normalize (normalize ts) = normalize ts.
Proof. now rewrite (normalize_daynum ts), normalize_midnight. Qed.


(** The candidate of the month of [ts] is returned up to its day, the
    settlement of the following month after it. *)
Lemma next_vix_monthly_settlement_cases ts :
  exists Dc,
    12 <= Dc <= 22 /\
    valid_date (ts_year ts) (ts_month ts) Dc = true /\
    vix_monthly_settlement_for_month (ts_year ts) (ts_month ts) =
    Ok (midnight (days_from_civil (ts_year ts) (ts_month ts) Dc)) /\
    ((ts_day ts <= Dc /\
      next_vix_monthly_settlement ts =
      Ok (midnight (days_from_civil (ts_year ts) (ts_month ts) Dc))) \/
     (Dc < ts_day ts /\
      next_vix_monthly_settlement ts =
      vix_monthly_settlement_for_month
        (fst (following_month (ts_year ts) (ts_month ts)))
        (snd (following_month (ts_year ts) (ts_month ts))))).
Proof.
  pose proof (ts_month_valid ts) as Hm.
  destruct (ts_fields ts) as [Hv Hn].
  destruct (vix_settlement_day (ts_year ts) (ts_month ts) Hm)
    as (Dc & HD & HvD & E).
  exists Dc. split; [exact HD|]. split; [exact HvD|]. split; [exact E|].
  rewrite next_vix_monthly_settlement_unfold, E. cbn [bind].
  rewrite normalize_midnight, (normalize_daynum ts), ts_gtb_midnight, <- Hn.
  rewrite (days_from_civil_day _ _ Dc), (days_from_civil_day _ _ (ts_day ts)).
  destruct (Z.ltb_spec (days_from_civil (ts_year ts) (ts_month ts) 1 + (Dc - 1))
              (days_from_civil (ts_year ts) (ts_month ts) 1 + (ts_day ts - 1)));
    [right|left]; (split; [lia|reflexivity]).
Qed.

(** X5: The time of day of the reference date plays no part, and the settlement
    returned is at midnight. *)
Theorem next_vix_monthly_settlement_ignores_time (ts : Timestamp) :
  next_vix_monthly_settlement (normalize ts) = next_vix_monthly_settlement ts /\
  exists r, next_vix_monthly_settlement ts = Ok r /\ normalize r = r.
Proof.
  split.
  - rewrite !next_vix_monthly_settlement_unfold.
    destruct (ts_fields_normalize ts) as (-> & -> & _).
    now rewrite normalize_idem.
  - pose proof (ts_month_valid ts) as Hm.
    destruct (next_vix_monthly_settlement_cases ts)
      as (Dc & _ & _ & _ & [[_ E]|[_ E]]); rewrite E.
    + eexists. split; [reflexivity|apply normalize_midnight].
    + destruct (vix_settlement_day
                  (fst (following_month (ts_year ts) (ts_month ts)))
                  (snd (following_month (ts_year ts) (ts_month ts)))
                  (following_month_valid (ts_year ts) (ts_month ts) Hm))
        as (D2 & _ & _ & E2).
      rewrite E2. eexists. split; [reflexivity|apply normalize_midnight].
Qed.

(** X6: A settlement date is its own next settlement: asking again from the date
    returned gives that date. *)
Theorem next_vix_monthly_settlement_fixed (ts : Timestamp) :
  exists r,
    next_vix_monthly_settlement ts = Ok r /\
    next_vix_monthly_settlement r = Ok r.
Proof.
  pose proof (ts_month_valid ts) as Hm.
  assert (fixed : forall y m D,
            valid_date y m D = true ->
            vix_monthly_settlement_for_month y m =
            Ok (midnight (days_from_civil y m D)) ->
            next_vix_monthly_settlement (midnight (days_from_civil y m D)) =
            Ok (midnight (days_from_civil y m D))).
  { intros y m D Hv E.
    rewrite next_vix_monthly_settlement_unfold.
    destruct (fields_midnight y m D Hv) as (-> & -> & _).
    rewrite E. cbn [bind].
    rewrite normalize_midnight, ts_gtb_midnight, Z.ltb_irrefl. reflexivity. }
  destruct (next_vix_monthly_settlement_cases ts)
    as (Dc & _ & Hv & Ec & [[_ E]|[_ E]]); rewrite E.
  - eexists. split; [reflexivity|]. now apply fixed.
  - destruct (vix_settlement_day
                (fst (following_month (ts_year ts) (ts_month ts)))
                (snd (following_month (ts_year ts) (ts_month ts)))
                (following_month_valid (ts_year ts) (ts_month ts) Hm))
      as (D2 & _ & Hv2 & E2).
    rewrite E2. eexists. split; [reflexivity|]. now apply fixed.
Qed.


(** The next settlement as a day number, at most 35 days ahead. *)
Lemma next_vix_monthly_settlement_daynum ts :
  exists n,
    next_vix_monthly_settlement ts = Ok (midnight n) /\
    0 <= n - ts_daynum ts <= 35.
Proof.
  pose proof (ts_month_valid ts) as Hm.
  destruct (ts_fields ts) as [Hvts Hn].
  pose proof (following_month_valid (ts_year ts) (ts_month ts) Hm) as Hm1.
  destruct (next_vix_monthly_settlement_cases ts)
    as (Dc & HDc & Hvc & Ec & Cases).
  apply valid_date_iff in Hvts as [_ Hd].
  rewrite <- Hn.
  set (ty := ts_year ts) in *. set (tm := ts_month ts) in *.
  destruct Cases as [[H E]|[H E]]; rewrite E.
  - eexists. split; [reflexivity|].
    rewrite (days_from_civil_day ty tm Dc),
      (days_from_civil_day ty tm (ts_day ts)). lia.
  - rewrite vix_following in Ec |- *.
    destruct (spx_monthly_expiration_gap
                (fst (following_month ty tm)) (snd (following_month ty tm))
                Hm1) as (a & b & Ea & Eb & G).
    rewrite Ea in Ec. cbn [bind] in Ec. rewrite ts_sub_midnight in Ec.
    assert (K : a - 30 = days_from_civil ty tm Dc).
    { injection Ec as Ec. apply midnight_inj. unfold midnight. congruence. }
    rewrite Eb. cbn [bind]. rewrite ts_sub_midnight.
    eexists. split; [reflexivity|].
    rewrite (days_from_civil_day ty tm Dc) in K.
    rewrite (days_from_civil_day ty tm (ts_day ts)).
    pose proof (days_in_month_bounds ty tm Hm).
    lia.
Qed.

(** X8: The day count to the next settlement, taken from the day of the
    reference date, is from 0 to 35. *)
Theorem days_to_next_vix_settlement_range (ts : Timestamp) :
  exists r,
    next_vix_monthly_settlement ts = Ok r /\
    0 <= td_days (ts_diff r (normalize ts)) <= 35.
Proof.
  destruct (next_vix_monthly_settlement_daynum ts) as (n & E & H).
  exists (midnight n). split; [exact E|].
  now rewrite (normalize_daynum ts), td_days_midnight.
Qed.

(** X9: The two dates of [next_two_vix_settlements] are 27 to 29 or 34 to 36
    days apart: four or five weeks, give or take a Good Friday shift. *)
Theorem next_two_vix_settlements_gap (ts : Timestamp) :
  exists first second,
    next_two_vix_settlements ts = Ok (first, second) /\
    let gap := td_days (ts_diff second first) in
    27 <= gap <= 29 \/ 34 <= gap <= 36.
Proof.
  destruct (next_two_vix_settlements_daynum ts) as (n1 & n2 & E & _ & G).
  exists (midnight n1), (midnight n2). split; [exact E|]. cbv zeta.
  now rewrite td_days_midnight.
Qed.

(** ** Day counts from a row *)

(** From a date with a time of day, the whole days to a midnight are one
    less than from its day. *)
Lemma td_days_from n d :
  td_days (ts_diff (midnight n) d) =
  n - ts_daynum d - (if ts_eqb d (normalize d) then 0 else 1).
Proof.
  unfold td_days, ts_diff, midnight, ts_daynum, ts_eqb, normalize.
  cbn [value]. change NS_PER_DAY with 86400000000000.
  destruct (Z.eqb_spec (value d) (value d - value d mod 86400000000000));
    Z.div_mod_to_equations; lia.
Qed.

Lemma td_days_from_day n d :
  td_days (ts_diff (midnight n) (normalize d)) = n - ts_daynum d.
Proof. now rewrite (normalize_daynum d), td_days_midnight. Qed.

(** Rounded up, the days from a date to a midnight are the days from its
    day. *)
Lemma ceil_days_from n d :
  ceil_div (ts_diff (midnight n) d) NS_PER_DAY = n - ts_daynum d.
Proof.
  unfold ceil_div, ts_diff, midnight, ts_daynum. cbn [value].
  change NS_PER_DAY with 86400000000000.
  Z.div_mod_to_equations. lia.
Qed.

Lemma zip_with_map {A B C D : Type} (g : C -> D) (f : A -> B -> C)
    (a : list A) :
  forall b, zip_with (fun x y => g (f x y)) a b = map g (zip_with f a b).
Proof.
  induction a as [|x a IH]; intros [|y b]; try reflexivity.
  cbn [zip_with map]. now rewrite IH.
Qed.

(** The day counts of [add_vix_next_expiration], row by row. *)
Lemma vix_day_counts idx settle :
  Forall2 (fun d s => next_vix_monthly_settlement d = Ok s) idx settle ->
  exists days,
    floor_days settle idx = map CInt days /\
    ceil_days settle idx = map CInt days /\
    List.length days = List.length idx /\
    Forall (fun n => 0 <= n <= 35) days.
Proof.
  induction 1 as [|d s idx settle Hd _ IH].
  - exists []. repeat split; constructor.
  - destruct IH as (days & Ef & Ec & Hl & Hr).
    destruct (next_vix_monthly_settlement_daynum d) as (n & En & Hn).
    rewrite En in Hd. injection Hd as <-.
    exists (n - ts_daynum d :: days).
    unfold floor_days, ceil_days in *. cbn [zip_with map List.length].
    rewrite Ef, Ec, td_days_from_day, ceil_days_from, Hl.
    repeat split; try reflexivity. constructor; assumption.
Qed.

(** The day counts of [add_days_to_next_two_expiries], row by row. *)
Lemma two_expiry_day_counts idx pairs :
  Forall2 (fun d p => next_two_vix_settlements d = Ok p) idx pairs ->
  Forall2 (fun d n =>
             exists s,
               next_vix_monthly_settlement d = Ok s /\
               n = td_days (ts_diff s (normalize d)) -
                   (if ts_eqb d (normalize d) then 0 else 1) /\
               -1 <= n <= 35)
          idx (days_until (map fst pairs) idx) /\
  Forall (fun n => 27 <= n <= 29 \/ 34 <= n <= 36)
         (zip_with Z.sub (days_until (map snd pairs) idx)
                         (days_until (map fst pairs) idx)) /\
  List.length (zip_with Z.sub (days_until (map snd pairs) idx)
                              (days_until (map fst pairs) idx)) =
  List.length idx.
Proof.
  induction 1 as [|d p idx pairs Hd _ IH].
  - repeat split; constructor.
  - destruct IH as (IH1 & IH2 & IH3).
    destruct (next_two_vix_settlements_daynum d) as (n1 & n2 & E2 & E1 & G).
    destruct (next_vix_monthly_settlement_daynum d) as (n & En & Hn).
    rewrite En in E1. injection E1 as E1.
    assert (n = n1) by (apply midnight_inj; unfold midnight; congruence).
    subst n. rewrite E2 in Hd. injection Hd as <-.
    unfold days_until in *.
    cbn [map fst snd zip_with List.length].
    rewrite !td_days_from.
    split; [|split].
    + constructor; [|exact IH1].
      exists (midnight n1). split; [exact En|].
      rewrite td_days_from_day.
      split; [reflexivity|]. destruct (ts_eqb d (normalize d)); lia.
    + constructor; [lia|exact IH2].
    + now rewrite IH3.
Qed.

(** ** What the annotations leave in the table *)

(** X10: Where the table already has both day-count columns,
    [add_vix_next_expiration] fills them with the same numbers: the count
    rounded up is the count between the days, whatever the time of day of
    the row, from 0 to 35. *)
Theorem add_vix_next_expiration_day_counts (df : DataFrame)
    (col_name : string) :
  has_column days_to_next_vix_exp (columns df) = true ->
  has_column days_to_next_vix_exp_ceil (columns df) = true ->
  days_to_next_vix_exp <> col_name_or_default col_name ->
  days_to_next_vix_exp_ceil <> col_name_or_default col_name ->
  exists r days,
    add_vix_next_expiration df col_name = Ok r /\
    get_column days_to_next_vix_exp (columns r) = Ok (map CInt days) /\
    get_column days_to_next_vix_exp_ceil (columns r) = Ok (map CInt days) /\
    List.length days = List.length (index df) /\
    Forall (fun n => 0 <= n <= 35) days.
Proof.
  intros Hf Hc Nf Nc.
  destruct (settlements_of_index (index df)) as [settle H].
  destruct (vix_day_counts (index df) settle (apply_Forall2 _ _ _ H))
    as (days & Ef & Ec & Hl & Hr).
  eexists. exists days.
  split; [exact (add_vix_next_expiration_eq df col_name settle H)|].
  cbn [columns]. rewrite Ef, Ec.
  split; [apply floor_column_vix; try assumption; exact label_floor_ceil|].
  split; [apply ceil_column_vix; try assumption; exact label_floor_ceil|].
  split; assumption.
Qed.

Lemma add_vix_next_expiration_day_counts_witness :
  exists r days,
    add_vix_next_expiration
      (mkDataFrame [mkTimestamp 1710936000000000000]
         [(days_to_next_vix_exp, [CInt 0]);
          (days_to_next_vix_exp_ceil, [CInt 0])]) "exp" = Ok r /\
    get_column days_to_next_vix_exp (columns r) = Ok (map CInt days) /\
    get_column days_to_next_vix_exp_ceil (columns r) = Ok (map CInt days) /\
    List.length days = 1%nat /\
    Forall (fun n => 0 <= n <= 35) days.
Proof.
  apply (add_vix_next_expiration_day_counts
           (mkDataFrame [mkTimestamp 1710936000000000000]
              [(days_to_next_vix_exp, [CInt 0]);
               (days_to_next_vix_exp_ceil, [CInt 0])]) "exp").
  - reflexivity.
  - reflexivity.
  - vm_compute. discriminate.
  - vm_compute. discriminate.
Defined.

Lemma get_column_two_expiry pairs idx remove_dates L k v :
  get_column k
    (set_column duration_second_fut
       (map CInt (zip_with Z.sub (days_until (map snd pairs) idx)
                                 (days_until (map fst pairs) idx)))
       (set_column days_to_second_exp
          (map CInt (days_until (map snd pairs) idx))
          (set_column days_to_first_exp
             (map CInt (days_until (map fst pairs) idx))
             (set_column second_vix_exp (map CTime (map snd pairs))
                (set_column next_vix_exp (map CTime (map fst pairs)) L)))))
  = v ->
  negb (remove_dates && mem k [next_vix_exp; second_vix_exp]) = true ->
  get_column k (two_expiry_columns pairs idx remove_dates L) = v.
Proof.
  intros E Hk. unfold two_expiry_columns. cbv zeta.
  destruct remove_dates; [|exact E].
  rewrite get_column_filter; [exact E|exact Hk].
Qed.

(** X11: [add_days_to_next_two_expiries] on a table with at least one row and
    distinct labels: the index is kept; the three day-count columns hold the
    whole days from each row to its two settlements and their difference;
    the two date columns hold the settlements when [remove_dates] is off and
    are absent when it is on, also when the table came with columns of those
    names; every other column is as it was. *)
Theorem add_days_to_next_two_expiries_columns (df : DataFrame)
    (remove_dates : bool) :
  index df <> [] -> NoDup (labels (columns df)) ->
  exists pairs r,
    Forall2 (fun d p => next_two_vix_settlements d = Ok p) (index df) pairs /\
    add_days_to_next_two_expiries df remove_dates = Ok r /\
    index r = index df /\
    get_column days_to_first_exp (columns r) =
      Ok (map CInt (days_until (map fst pairs) (index df))) /\
    get_column days_to_second_exp (columns r) =
      Ok (map CInt (days_until (map snd pairs) (index df))) /\
    get_column duration_second_fut (columns r) =
      Ok (map CInt (zip_with Z.sub
                      (days_until (map snd pairs) (index df))
                      (days_until (map fst pairs) (index df)))) /\
    (if remove_dates
     then has_column next_vix_exp (columns r) = false /\
          has_column second_vix_exp (columns r) = false
     else get_column next_vix_exp (columns r) =
            Ok (map CTime (map fst pairs)) /\
          get_column second_vix_exp (columns r) =
            Ok (map CTime (map snd pairs))) /\
    (forall k,
       ~ In k [next_vix_exp; second_vix_exp; days_to_first_exp;
               days_to_second_exp; duration_second_fut] ->
       get_column k (columns r) = get_column k (columns df)).
Proof.
  intros Hne _.
  destruct (settlement_pairs_of_index (index df)) as [pairs H].
  exists pairs. eexists. split; [now apply apply_Forall2|].
  split; [exact (add_days_to_next_two_expiries_eq df remove_dates pairs Hne H)|].
  cbn [index columns]. split; [reflexivity|].
  split.
  { apply get_column_two_expiry; [|now rewrite andb_false_r].
    rewrite !get_column_set_other by labels_differ.
    apply get_column_set_same. }
  split.
  { apply get_column_two_expiry; [|now rewrite andb_false_r].
    rewrite !get_column_set_other by labels_differ.
    apply get_column_set_same. }
  split.
  { apply get_column_two_expiry; [|now rewrite andb_false_r].
    apply get_column_set_same. }
  split.
  { destruct remove_dates.
    - unfold two_expiry_columns. cbv zeta.
      rewrite !has_column_filter. split; apply andb_false_r.
    - unfold two_expiry_columns. cbv zeta. split.
      + rewrite !get_column_set_other by labels_differ.
        apply get_column_set_same.
      + rewrite !get_column_set_other by labels_differ.
        apply get_column_set_same. }
  intros k Hk. cbn [In] in Hk.
  assert (N1 : k <> next_vix_exp) by (intros E; apply Hk; rewrite E; auto 10).
  assert (N2 : k <> second_vix_exp) by (intros E; apply Hk; rewrite E; auto 10).
  assert (N3 : k <> days_to_first_exp) by (intros E; apply Hk; rewrite E; auto 10).
  assert (N4 : k <> days_to_second_exp) by (intros E; apply Hk; rewrite E; auto 10).
  assert (N5 : k <> duration_second_fut) by (intros E; apply Hk; rewrite E; auto 10).
  apply get_column_two_expiry.
  - now rewrite !get_column_set_other.
  - cbn [mem existsb].
    rewrite (proj2 (String.eqb_neq _ _) N1), (proj2 (String.eqb_neq _ _) N2).
    now rewrite andb_false_r.
Qed.

Lemma add_days_to_next_two_expiries_columns_witness :
  exists pairs r,
    Forall2 (fun d p => next_two_vix_settlements d = Ok p)
            [mkTimestamp 1710936000000000000] pairs /\
    add_days_to_next_two_expiries
      (mkDataFrame [mkTimestamp 1710936000000000000]
                   [(next_vix_exp, [CInt 7])]) true = Ok r /\
    index r = [mkTimestamp 1710936000000000000] /\
    get_column days_to_first_exp (columns r) =
      Ok (map CInt (days_until (map fst pairs)
                               [mkTimestamp 1710936000000000000])) /\
    get_column days_to_second_exp (columns r) =
      Ok (map CInt (days_until (map snd pairs)
                               [mkTimestamp 1710936000000000000])) /\
    get_column duration_second_fut (columns r) =
      Ok (map CInt (zip_with Z.sub
                      (days_until (map snd pairs)
                                  [mkTimestamp 1710936000000000000])
                      (days_until (map fst pairs)
                                  [mkTimestamp 1710936000000000000]))) /\
    (has_column next_vix_exp (columns r) = false /\
     has_column second_vix_exp (columns r) = false) /\
    (forall k,
       ~ In k [next_vix_exp; second_vix_exp; days_to_first_exp;
               days_to_second_exp; duration_second_fut] ->
       get_column k (columns r) = get_column k [(next_vix_exp, [CInt 7])]).
Proof.
  apply (add_days_to_next_two_expiries_columns
           (mkDataFrame [mkTimestamp 1710936000000000000]
                        [(next_vix_exp, [CInt 7])]) true).
  - discriminate.
  - constructor; [intros []|constructor].
Defined.

(** X12: The numbers [add_days_to_next_two_expiries] writes: [days_to_first_exp]
    is the day count to the next settlement, less one on a row that carries
    a time of day (so -1 on a settlement day after midnight), and
    [duration_second_fut] is 27 to 29 or 34 to 36 on every row. *)
Theorem add_days_to_next_two_expiries_values (df : DataFrame)
    (remove_dates : bool) :
  index df <> [] -> NoDup (labels (columns df)) ->
  exists r first duration,
    add_days_to_next_two_expiries df remove_dates = Ok r /\
    get_column days_to_first_exp (columns r) = Ok (map CInt first) /\
    get_column duration_second_fut (columns r) = Ok (map CInt duration) /\
    Forall2 (fun d n =>
               exists s,
                 next_vix_monthly_settlement d = Ok s /\
                 n = td_days (ts_diff s (normalize d)) -
                     (if ts_eqb d (normalize d) then 0 else 1) /\
                 -1 <= n <= 35)
            (index df) first /\
    Forall (fun n => 27 <= n <= 29 \/ 34 <= n <= 36) duration /\
    List.length duration = List.length (index df).
Proof.
  intros Hne _.
  destruct (settlement_pairs_of_index (index df)) as [pairs H].
  destruct (two_expiry_day_counts (index df) pairs (apply_Forall2 _ _ _ H))
    as (V1 & V2 & V3).
  eexists. do 2 eexists.
  split; [exact (add_days_to_next_two_expiries_eq df remove_dates pairs Hne H)|].
  cbn [columns].
  split.
  { apply get_column_two_expiry; [|now rewrite andb_false_r].
    rewrite !get_column_set_other by labels_differ.
    apply get_column_set_same. }
  split.
  { apply get_column_two_expiry; [|now rewrite andb_false_r].
    apply get_column_set_same. }
  split; [exact V1|]. split; [exact V2|exact V3].
Qed.

Lemma add_days_to_next_two_expiries_values_witness :
  exists r first duration,
    add_days_to_next_two_expiries
      (mkDataFrame [mkTimestamp 1710936000000000000]
                   [(next_vix_exp, [CInt 7])]) true = Ok r /\
    get_column days_to_first_exp (columns r) = Ok (map CInt first) /\
    get_column duration_second_fut (columns r) = Ok (map CInt duration) /\
    Forall2 (fun d n =>
               exists s,
                 next_vix_monthly_settlement d = Ok s /\
                 n = td_days (ts_diff s (normalize d)) -
                     (if ts_eqb d (normalize d) then 0 else 1) /\
                 -1 <= n <= 35)
            [mkTimestamp 1710936000000000000] first /\
    Forall (fun n => 27 <= n <= 29 \/ 34 <= n <= 36) duration /\
    List.length duration = 1%nat.
Proof.
  apply (add_days_to_next_two_expiries_values
           (mkDataFrame [mkTimestamp 1710936000000000000]
                        [(next_vix_exp, [CInt 7])]) true).
  - discriminate.
  - constructor; [intros []|constructor].
Defined.

(** ** The second settlement follows the first *)

Lemma next_two_vix_settlements_months ts :
  exists y m D first second,
    1 <= m <= 12 /\ 12 <= D <= 22 /\ valid_date y m D = true /\
    first = midnight (days_from_civil y m D) /\
    next_two_vix_settlements ts = Ok (first, second) /\
    vix_monthly_settlement_for_month y m = Ok first /\
    vix_monthly_settlement_for_month (fst (following_month y m))
                                     (snd (following_month y m)) = Ok second.
Proof.
  pose proof (next_two_vix_settlements_unfold ts) as U. cbv zeta in U.
  rewrite U. clear U.
  pose proof (ts_month_valid ts) as Hm.
  set (y := ts_year ts) in *. set (m := ts_month ts) in *.
  pose proof (following_month_valid y m Hm) as Hm1.
  set (y1 := fst (following_month y m)) in *.
  set (m1 := snd (following_month y m)) in *.
  pose proof (following_month_valid y1 m1 Hm1) as Hm2.
  destruct (vix_settlement_day y m Hm) as (D & HD & Hv & E).
  destruct (vix_settlement_day y1 m1 Hm1) as (D1 & HD1 & Hv1 & E1).
  destruct (vix_settlement_day (fst (following_month y1 m1))
              (snd (following_month y1 m1)) Hm2) as (D2 & _ & _ & E2).
  rewrite E. cbn [bind].
  destruct (ts_gtb _ _).
  - rewrite E1, E2. cbn [bind].
    exists y1, m1, D1. do 2 eexists.
    repeat (split; [first [eassumption|reflexivity]|]). exact E2.
  - rewrite E1. cbn [bind].
    exists y, m, D. do 2 eexists.
    repeat (split; [first [eassumption|reflexivity]|]). exact E1.
Qed.

(** X13: The second date of [next_two_vix_settlements] is the next settlement
    counted from the day after the first. *)
Theorem next_two_vix_settlements_second_is_next (ts : Timestamp) :
  exists first second,
    next_two_vix_settlements ts = Ok (first, second) /\
    next_vix_monthly_settlement (ts_add first (Timedelta_days 1)) = Ok second.
Proof.
  destruct (next_two_vix_settlements_months ts)
    as (y & m & D & first & second & Hm & HD & Hv & -> & E & E1 & E2).
  eexists. eexists. split; [exact E|].
  rewrite ts_add_midnight.
  replace (days_from_civil y m D + 1) with (days_from_civil y m (D + 1))
    by (rewrite (days_from_civil_day y m (D + 1)),
          (days_from_civil_day y m D); lia).
  assert (Hv' : valid_date y m (D + 1) = true)
    by (apply valid_date_small; lia).
  rewrite next_vix_monthly_settlement_unfold.
  destruct (fields_midnight y m (D + 1) Hv') as (-> & -> & _).
  rewrite E1. cbn [bind].
  rewrite !normalize_midnight, ts_gtb_midnight.
  rewrite (days_from_civil_day y m (D + 1)), (days_from_civil_day y m D).
  destruct (Z.ltb_spec (days_from_civil y m 1 + (D - 1))
                       (days_from_civil y m 1 + (D + 1 - 1))); [exact E2|lia].
Qed.

(** ** Spreadsheet dates *)

Lemma xl_epoch : Timestamp_ymd 1899 12 30 = Ok (midnight (-25569)).
Proof. reflexivity. Qed.

Lemma apply_astype_int (ns : list Z) : apply astype_int (map CInt ns) = Ok ns.
Proof.
  induction ns as [|n ns IH]; [reflexivity|].
  cbn [map apply astype_int bind]. now rewrite IH.
Qed.

Lemma filter_not_label col (cols : list (string * column)) :
  filter (fun kc => negb (String.eqb (fst kc) col)) cols =
  filter (on_label (fun k => negb (String.eqb k col))) cols.
Proof. reflexivity. Qed.

(** X14: A column that is not in the table: [clean_xl_dates] raises [KeyError]
    and nothing is converted. *)
Theorem clean_xl_dates_missing_column (df : Table) (col : string)
    (set_index : bool) :
  has_column col (t_columns df) = false ->
  clean_xl_dates df col set_index = Raise KeyError.
Proof.
  intros H. unfold clean_xl_dates. rewrite xl_epoch. cbn [bind].
  now rewrite (get_column_absent col (t_columns df) H).
Qed.

Lemma clean_xl_dates_missing_column_witness :
  clean_xl_dates (mkTable [CInt 0] [("close"%string, [CInt 5])]) "date" true =
  Raise KeyError.
Proof.
  apply (clean_xl_dates_missing_column
           (mkTable [CInt 0] [("close"%string, [CInt 5])]) "date" true).
  reflexivity.
Defined.

(** X15: On a column of integers [clean_xl_dates] turns the serial number [n]
    into midnight of the day [n - 25569] days from 1970-01-01, that is [n]
    days from 1899-12-30.  With [set_index] these dates are the new index
    and the column is gone; without, the index is kept and the column holds
    the dates, in its place.  The other columns are as they were. *)
Theorem clean_xl_dates_converts (df : Table) (col : string)
    (set_index : bool) (serials : list Z) :
  get_column col (t_columns df) = Ok (map CInt serials) ->
  NoDup (labels (t_columns df)) ->
  let dates := map (fun n => CTime (midnight (n - 25569))) serials in
  exists r,
    clean_xl_dates df col set_index = Ok r /\
    (if set_index
     then t_index r = dates /\ has_column col (t_columns r) = false
     else t_index r = t_index df /\
          labels (t_columns r) = labels (t_columns df) /\
          get_column col (t_columns r) = Ok dates) /\
    (forall k, k <> col ->
               get_column k (t_columns r) = get_column k (t_columns df)).
Proof.
  intros H _. cbv zeta. unfold clean_xl_dates.
  rewrite xl_epoch, H. cbn [bind]. rewrite apply_astype_int. cbn [bind].
  assert (Hc : has_column col (t_columns df) = true).
  { destruct (has_column col (t_columns df)) eqn:K; [reflexivity|].
    rewrite (get_column_absent col _ K) in H. discriminate H. }
  assert (Ed : map (fun n => CTime (ts_add (midnight (-25569))
                                           (Timedelta_days n))) serials =
               map (fun n => CTime (midnight (n - 25569))) serials).
  { apply map_ext. intros n. rewrite ts_add_midnight. do 2 f_equal. lia. }
  rewrite Ed.
  destruct set_index.
  - unfold set_index_drop. rewrite get_column_set_same. cbn [bind].
    eexists. split; [reflexivity|]. cbn [t_index t_columns].
    rewrite filter_not_label. split.
    + split; [reflexivity|].
      rewrite has_column_filter, String.eqb_refl. apply andb_false_r.
    + intros k Hk.
      rewrite get_column_filter
        by (apply negb_true_iff, String.eqb_neq, Hk).
      now apply get_column_set_other.
  - eexists. split; [reflexivity|]. cbn [t_index t_columns]. split.
    + split; [reflexivity|]. split.
      * rewrite labels_set_column, Hc. apply app_nil_r.
      * apply get_column_set_same.
    + intros k Hk. now apply get_column_set_other.
Qed.

Lemma clean_xl_dates_converts_witness :
  let dates := map (fun n => CTime (midnight (n - 25569))) [45371; 45372] in
  exists r,
    clean_xl_dates
      (mkTable [CInt 0; CInt 1]
               [("date"%string, [CInt 45371; CInt 45372]);
                ("close"%string, [CInt 5; CInt 6])]) "date" true = Ok r /\
    (t_index r = dates /\ has_column "date" (t_columns r) = false) /\
    (forall k, k <> "date"%string ->
               get_column k (t_columns r) =
               get_column k [("date"%string, [CInt 45371; CInt 45372]);
                             ("close"%string, [CInt 5; CInt 6])]).
Proof.
  apply (clean_xl_dates_converts
           (mkTable [CInt 0; CInt 1]
                    [("date"%string, [CInt 45371; CInt 45372]);
                     ("close"%string, [CInt 5; CInt 6])])
           "date" true [45371; 45372]).
  - reflexivity.
  - constructor; [|constructor; [intros []|constructor]].
    simpl. intros [E|[]]. discriminate E.
Defined.
